(** * ARM7 core of NanoboyAdvance: dispatch, condition evaluation,
      mode switching and interrupt entry (src/core/arm/arm.inl)

    A shallow embedding of the member functions of [ARM7] defined in
    [arm.inl], followed by the properties the specification states about
    them.  32-bit registers are integers in [Z] with the wrap-around of
    unsigned arithmetic written out; the C arrays [reg], [bank] and [spsr]
    are lists accessed by index; the memory interface and the two opcode
    tables are external collaborators and stay abstract. *)

From Stdlib Require Import ZArith Lia Bool List.
From stdpp Require Import base list.
Import ListNotations.

Local Open Scope Z_scope.

(** ** Enumerations *)

(** [enum Condition]: the sixteen condition codes, in the order of the
    [switch] of [CheckCondition]. *)
Inductive Condition : Type :=
  | COND_EQ | COND_NE | COND_CS | COND_CC
  | COND_MI | COND_PL | COND_VS | COND_VC
  | COND_HI | COND_LS | COND_GE | COND_LT
  | COND_GT | COND_LE | COND_AL | COND_NV.

(** Modelled from the spec: the enumerator values of [Condition] are declared
    in a header that is not part of [arm.inl].  The specification calls the
    input "a 4-bit condition code" of "the standard ARM truth table", so the
    cast [static_cast<Condition>(instruction >> 28)] is read with the
    architectural encoding EQ=0 ... NV=15.  A 32-bit word shifted right by 28
    is always below 16; the last line is never reached for such a word. *)
Definition Condition_of_Z (k : Z) : Condition :=
  match k with
  | 0 => COND_EQ | 1 => COND_NE | 2 => COND_CS | 3 => COND_CC
  | 4 => COND_MI | 5 => COND_PL | 6 => COND_VS | 7 => COND_VC
  | 8 => COND_HI | 9 => COND_LS | 10 => COND_GE | 11 => COND_LT
  | 12 => COND_GT | 13 => COND_LE | 14 => COND_AL
  | _ => COND_NV
  end.

(** [enum Bank]: the register banks.  [BANK_COUNT] is the number of them. *)
Inductive Bank : Type :=
  | BANK_NONE | BANK_FIQ | BANK_SVC | BANK_ABT | BANK_IRQ | BANK_UND.

#[export] Instance Bank_eq_dec : EqDecision Bank.
Proof. solve_decision. Defined.

Definition BANK_COUNT : nat := 6.

(** Modelled from the spec: the position of each bank in the arrays
    [state.bank] and [state.spsr] comes from the missing header; the
    specification has "six independent register banks".  The positions are
    pairwise distinct and below [BANK_COUNT] ([Bank_idx_inj], [Bank_idx_lt]);
    no property below names a position by its number. *)
Definition Bank_idx (b : Bank) : nat :=
  match b with
  | BANK_NONE => 0 | BANK_FIQ => 1 | BANK_SVC => 2
  | BANK_ABT => 3 | BANK_IRQ => 4 | BANK_UND => 5
  end%nat.

Definition Bank_eqb (a b : Bank) : bool :=
  match a, b with
  | BANK_NONE, BANK_NONE | BANK_FIQ, BANK_FIQ | BANK_SVC, BANK_SVC
  | BANK_ABT, BANK_ABT | BANK_IRQ, BANK_IRQ | BANK_UND, BANK_UND => true
  | _, _ => false
  end.

(** Modelled from the spec: [enum BankedRegister] is declared in the missing
    header.  Each bank row has seven entries ([Reset] clears [bank[i][0..6]])
    and [SwitchMode] keeps r8..r12 in entries [2..6], so the "banked
    stack-pointer and link-register slots (2 entries)" of the specification
    are the first two. *)
Definition BANK_R13 : nat := 0.
Definition BANK_R14 : nat := 1.

(** Modelled from the spec: the values of [enum Mode] are declared in the
    missing header.  The mode lives in "a 5-bit current-mode field", and the
    named modes are given their architectural encodings.  What the proofs
    use is that the seven values are pairwise distinct (they label the
    cases of one [switch]) and fit in five bits. *)
Definition MODE_USR : Z := 0x10.
Definition MODE_FIQ : Z := 0x11.
Definition MODE_IRQ : Z := 0x12.
Definition MODE_SVC : Z := 0x13.
Definition MODE_ABT : Z := 0x17.
Definition MODE_UND : Z := 0x1B.
Definition MODE_SYS : Z := 0x1F.

(** Access kinds passed to the memory interface. *)
Inductive AccessType : Type := ACCESS_NSEQ | ACCESS_SEQ.

(** ** Processor state *)

(** Modelled from the spec: [StatusRegister] is declared in the missing
    header; [arm.inl] uses it as a union of a bit-field view [f] and the raw
    word [v].  The specification lists its fields: negative, zero, carry,
    overflow, interrupt mask, instruction width and a 5-bit mode.  The
    fields named in [arm.inl] are kept apart; [f_rest] stands for the bits
    of the raw word that [arm.inl] never names.  Copying [.v] copies the
    whole record. *)
Record StatusRegister : Type := mkStatusRegister {
  f_mode : Z;
  f_thumb : bool;
  f_mask_irq : bool;
  f_v : bool;
  f_c : bool;
  f_z : bool;
  f_n : bool;
  f_rest : Z
}.

(** The raw word 0: every field is zero. *)
Definition StatusRegister_zero : StatusRegister :=
  mkStatusRegister 0 false false false false false false 0.

(** Modelled from the spec: [State] is declared in the missing header.  The
    array sizes are those of the loops of [Reset]; r13, r14 and r15 are
    other names of [reg[13]], [reg[14]] and [reg[15]]. *)
Record State : Type := mkState {
  reg : list Z;              (* reg[16]; r13, r14, r15 alias reg[13..15] *)
  bank : list (list Z);      (* bank[BANK_COUNT][7] *)
  cpsr : StatusRegister;
  spsr : list StatusRegister (* spsr[BANK_COUNT] *)
}.

(** ** Condition evaluation *)

(** [ARM7::CheckCondition].  It reads [state.cpsr] only. *)
Definition CheckCondition (cpsr : StatusRegister) (condition : Condition) : bool :=
  match condition with
  | COND_AL => true
  | COND_EQ => f_z cpsr
  | COND_NE => negb (f_z cpsr)
  | COND_CS => f_c cpsr
  | COND_CC => negb (f_c cpsr)
  | COND_MI => f_n cpsr
  | COND_PL => negb (f_n cpsr)
  | COND_VS => f_v cpsr
  | COND_VC => negb (f_v cpsr)
  | COND_HI => f_c cpsr && negb (f_z cpsr)
  | COND_LS => negb (f_c cpsr) || f_z cpsr
  | COND_GE => Bool.eqb (f_n cpsr) (f_v cpsr)
  | COND_LT => negb (Bool.eqb (f_n cpsr) (f_v cpsr))
  | COND_GT => negb (f_z cpsr || negb (Bool.eqb (f_n cpsr) (f_v cpsr)))
  | COND_LE => f_z cpsr || negb (Bool.eqb (f_n cpsr) (f_v cpsr))
  | COND_NV => false
  end.

(** The truth table as the specification words it, on the four flags. *)
Definition truth_table (condition : Condition) (n z c v : bool) : bool :=
  match condition with
  | COND_EQ => z
  | COND_NE => negb z
  | COND_CS => c
  | COND_CC => negb c
  | COND_MI => n
  | COND_PL => negb n
  | COND_VS => v
  | COND_VC => negb v
  | COND_HI => c && negb z
  | COND_LS => negb c || z
  | COND_GE => Bool.eqb n v
  | COND_LT => negb (Bool.eqb n v)
  | COND_GT => negb z && Bool.eqb n v
  | COND_LE => z || negb (Bool.eqb n v)
  | COND_AL => true
  | COND_NV => false
  end.

(** ** The core and its collaborators *)

(** One access seen by the memory interface: width, address, kind. *)
Inductive Width : Type := WORD | HALF.

Record BusAccess : Type := mkBusAccess {
  acc_width : Width;
  acc_addr : Z;
  acc_kind : AccessType
}.

(** The memory interface ([interface->ReadWord], [interface->ReadHalf]): an
    external collaborator with a state of its own.  A read returns the raw
    datum and the collaborator's next state. *)
Class Interface (Bus : Type) : Type := {
  bus_ReadWord : Z -> AccessType -> Bus -> Z * Bus;
  bus_ReadHalf : Z -> AccessType -> Bus -> Z * Bus
}.

(** Modelled from the spec: the class [ARM7] is declared in the missing
    header; these are the members that [arm.inl] uses.  [p_spsr] points into
    [state.spsr]: [Some b] is the address of [state.spsr[b]], [None] a
    pointer that was never set.  [bus_log] is a ghost field: the accesses
    made so far, oldest first. *)
Record ARM7 {Bus : Type} : Type := mkARM7 {
  state : State;
  pipe0 : Z;
  pipe1 : Z;
  p_spsr : option Bank;
  interface : Bus;
  bus_log : list BusAccess
}.
Arguments ARM7 : clear implicits.

(** Unsigned 32-bit wrap-around. *)
Definition u32 (x : Z) : Z := x mod 2 ^ 32.

Section Core.

Context {Bus : Type} `{Interface Bus}.

(** *** Field updates *)

Definition with_state (f : State -> State) (cpu : ARM7 Bus) : ARM7 Bus :=
  mkARM7 Bus (f (state cpu)) (pipe0 cpu) (pipe1 cpu) (p_spsr cpu)
    (interface cpu) (bus_log cpu).

Definition with_cpsr (f : StatusRegister -> StatusRegister) (cpu : ARM7 Bus) : ARM7 Bus :=
  with_state (fun s => mkState (reg s) (bank s) (f (cpsr s)) (spsr s)) cpu.

(** [state.reg[i]] *)
Definition get_reg (i : nat) (cpu : ARM7 Bus) : Z := reg (state cpu) !!! i.

(** [state.reg[i] = x] *)
Definition set_reg (i : nat) (x : Z) (cpu : ARM7 Bus) : ARM7 Bus :=
  with_state (fun s => mkState (<[i := x]> (reg s)) (bank s) (cpsr s) (spsr s)) cpu.

(** [state.bank[b][j]] *)
Definition get_bank (b j : nat) (cpu : ARM7 Bus) : Z := (bank (state cpu) !!! b) !!! j.

(** [state.bank[b][j] = x] *)
Definition set_bank (b j : nat) (x : Z) (cpu : ARM7 Bus) : ARM7 Bus :=
  with_state (fun s =>
    mkState (reg s) (alter (fun row => <[j := x]> row) b (bank s)) (cpsr s) (spsr s)) cpu.

(** [state.spsr[b].v = w.v] *)
Definition set_spsr (b : nat) (w : StatusRegister) (cpu : ARM7 Bus) : ARM7 Bus :=
  with_state (fun s => mkState (reg s) (bank s) (cpsr s) (<[b := w]> (spsr s))) cpu.

(** [state.cpsr.v = w.v] *)
Definition set_cpsr (w : StatusRegister) (cpu : ARM7 Bus) : ARM7 Bus :=
  with_cpsr (fun _ => w) cpu.

(** [state.cpsr.f.mode = m]: the field is five bits wide. *)
Definition set_mode (m : Z) (cpu : ARM7 Bus) : ARM7 Bus :=
  with_cpsr (fun r => mkStatusRegister (Z.land m 31) (f_thumb r) (f_mask_irq r)
                        (f_v r) (f_c r) (f_z r) (f_n r) (f_rest r)) cpu.

(** [state.cpsr.f.thumb = t] *)
Definition set_thumb (t : bool) (cpu : ARM7 Bus) : ARM7 Bus :=
  with_cpsr (fun r => mkStatusRegister (f_mode r) t (f_mask_irq r)
                        (f_v r) (f_c r) (f_z r) (f_n r) (f_rest r)) cpu.

(** [state.cpsr.f.mask_irq = i] *)
Definition set_mask_irq (i : bool) (cpu : ARM7 Bus) : ARM7 Bus :=
  with_cpsr (fun r => mkStatusRegister (f_mode r) (f_thumb r) i
                        (f_v r) (f_c r) (f_z r) (f_n r) (f_rest r)) cpu.

Definition set_pipe0 (w : Z) (cpu : ARM7 Bus) : ARM7 Bus :=
  mkARM7 Bus (state cpu) w (pipe1 cpu) (p_spsr cpu) (interface cpu) (bus_log cpu).

Definition set_pipe1 (w : Z) (cpu : ARM7 Bus) : ARM7 Bus :=
  mkARM7 Bus (state cpu) (pipe0 cpu) w (p_spsr cpu) (interface cpu) (bus_log cpu).

Definition set_p_spsr (b : Bank) (cpu : ARM7 Bus) : ARM7 Bus :=
  mkARM7 Bus (state cpu) (pipe0 cpu) (pipe1 cpu) (Some b) (interface cpu) (bus_log cpu).

(** *** Memory reads *)

(** [interface->ReadWord(address, kind)]: the datum, and the core with the
    collaborator's next state and the access logged. *)
Definition interface_ReadWord (address : Z) (kind : AccessType) (cpu : ARM7 Bus) : Z * ARM7 Bus :=
  let '(w, b) := bus_ReadWord address kind (interface cpu) in
  (w, mkARM7 Bus (state cpu) (pipe0 cpu) (pipe1 cpu) (p_spsr cpu) b
        (bus_log cpu ++ [mkBusAccess WORD address kind])).

Definition interface_ReadHalf (address : Z) (kind : AccessType) (cpu : ARM7 Bus) : Z * ARM7 Bus :=
  let '(w, b) := bus_ReadHalf address kind (interface cpu) in
  (w, mkARM7 Bus (state cpu) (pipe0 cpu) (pipe1 cpu) (p_spsr cpu) b
        (bus_log cpu ++ [mkBusAccess HALF address kind])).

(** Modelled from the spec: [ARM7::ReadWord] and [ARM7::ReadHalf], which
    [Run] calls, are defined in the missing header.  By the specification
    each dispatch step "triggers a bus read" through the bus collaborator,
    so they are taken to forward to the memory interface. *)
Definition ReadWord (address : Z) (kind : AccessType) (cpu : ARM7 Bus) : Z * ARM7 Bus :=
  interface_ReadWord address kind cpu.

(** Modelled from the spec: [ARM7::ReadHalf], as [ReadWord] above. *)
Definition ReadHalf (address : Z) (kind : AccessType) (cpu : ARM7 Bus) : Z * ARM7 Bus :=
  interface_ReadHalf address kind cpu.

(** *** Pipeline refill *)

(** [ARM7::RefillA] *)
Definition RefillA (cpu : ARM7 Bus) : ARM7 Bus :=
  let '(w0, cpu) := interface_ReadWord (u32 (get_reg 15 cpu + 0)) ACCESS_NSEQ cpu in
  let cpu := set_pipe0 w0 cpu in
  let '(w1, cpu) := interface_ReadWord (u32 (get_reg 15 cpu + 4)) ACCESS_SEQ cpu in
  let cpu := set_pipe1 w1 cpu in
  set_reg 15 (u32 (get_reg 15 cpu + 8)) cpu.

(** [ARM7::RefillT] *)
Definition RefillT (cpu : ARM7 Bus) : ARM7 Bus :=
  let '(h0, cpu) := interface_ReadHalf (u32 (get_reg 15 cpu + 0)) ACCESS_NSEQ cpu in
  let cpu := set_pipe0 h0 cpu in
  let '(h1, cpu) := interface_ReadHalf (u32 (get_reg 15 cpu + 2)) ACCESS_SEQ cpu in
  let cpu := set_pipe1 h1 cpu in
  set_reg 15 (u32 (get_reg 15 cpu + 4)) cpu.

(** [ARM7::SetNZ] *)
Definition SetNZ (value : Z) (cpu : ARM7 Bus) : ARM7 Bus :=
  with_cpsr (fun r => mkStatusRegister (f_mode r) (f_thumb r) (f_mask_irq r)
                        (f_v r) (f_c r) (value =? 0) (Z.testbit value 31) (f_rest r)) cpu.

(** *** Mode switching *)

(** [ARM7::ModeToBank] *)
Definition ModeToBank (mode : Z) : Bank :=
  if (mode =? MODE_USR) || (mode =? MODE_SYS) then BANK_NONE
  else if mode =? MODE_FIQ then BANK_FIQ
  else if mode =? MODE_IRQ then BANK_IRQ
  else if mode =? MODE_SVC then BANK_SVC
  else if mode =? MODE_ABT then BANK_ABT
  else if mode =? MODE_UND then BANK_UND
  else BANK_NONE.

(** [ARM7::SwitchMode].  Each early [return] is the [then] branch of a
    conditional; the two [for] loops are folds over [0..4]. *)
Definition SwitchMode (new_mode : Z) (cpu : ARM7 Bus) : ARM7 Bus :=
  let old_mode := f_mode (cpsr (state cpu)) in
  if new_mode =? old_mode then cpu else
  let new_bank := ModeToBank new_mode in
  let old_bank := ModeToBank old_mode in
  let cpu := set_mode new_mode cpu in
  if Bank_eqb new_bank old_bank then cpu else
  let cpu :=
    if Bank_eqb new_bank BANK_FIQ || Bank_eqb old_bank BANK_FIQ then
      let old_gpr_bank := if Bank_eqb old_bank BANK_FIQ then BANK_FIQ else BANK_NONE in
      let new_gpr_bank := if Bank_eqb new_bank BANK_FIQ then BANK_FIQ else BANK_NONE in
      (* Save General Purpose Registers *)
      let cpu :=
        foldl (fun cpu i =>
                 set_bank (Bank_idx old_gpr_bank) (2 + i) (get_reg (8 + i) cpu) cpu)
              cpu (seq 0 5) in
      (* Restore General Purpose Registers *)
      foldl (fun cpu i =>
               set_reg (8 + i) (get_bank (Bank_idx new_gpr_bank) (2 + i) cpu) cpu)
            cpu (seq 0 5)
    else cpu in
  (* Save SP and LR to current bank. *)
  let cpu := set_bank (Bank_idx old_bank) BANK_R13 (get_reg 13 cpu) cpu in
  let cpu := set_bank (Bank_idx old_bank) BANK_R14 (get_reg 14 cpu) cpu in
  (* Restore SP and LR from new bank. *)
  let cpu := set_reg 13 (get_bank (Bank_idx new_bank) BANK_R13 cpu) cpu in
  let cpu := set_reg 14 (get_bank (Bank_idx new_bank) BANK_R14 cpu) cpu in
  set_p_spsr new_bank cpu.

(** *** Reset *)

(** [ARM7::Reset] *)
Definition Reset (cpu : ARM7 Bus) : ARM7 Bus :=
  let cpu := foldl (fun cpu i => set_reg i 0 cpu) cpu (seq 0 16) in
  let cpu :=
    foldl (fun cpu i =>
             let cpu := foldl (fun cpu j => set_bank i j 0 cpu) cpu (seq 0 7) in
             set_spsr i StatusRegister_zero cpu)
          cpu (seq 0 BANK_COUNT) in
  let cpu := set_cpsr StatusRegister_zero cpu in
  let cpu := SwitchMode MODE_SYS cpu in
  let cpu := set_pipe0 0xF0000000 cpu in
  set_pipe1 0xF0000000 cpu.

(** *** Interrupt entry *)

(** [ARM7::SignalIrq] *)
Definition SignalIrq (cpu : ARM7 Bus) : ARM7 Bus :=
  if f_mask_irq (cpsr (state cpu)) then cpu else
  let cpu :=
    if f_thumb (cpsr (state cpu)) then
      (* Store return address in r14<irq>. *)
      let cpu := set_bank (Bank_idx BANK_IRQ) BANK_R14 (get_reg 15 cpu) cpu in
      (* Save program status and switch to IRQ mode. *)
      let cpu := set_spsr (Bank_idx BANK_IRQ) (cpsr (state cpu)) cpu in
      let cpu := SwitchMode MODE_IRQ cpu in
      let cpu := set_thumb false cpu in
      set_mask_irq true cpu
    else
      (* Store return address in r14<irq>. *)
      let cpu := set_bank (Bank_idx BANK_IRQ) BANK_R14 (u32 (get_reg 15 cpu - 4)) cpu in
      (* Save program status and switch to IRQ mode. *)
      let cpu := set_spsr (Bank_idx BANK_IRQ) (cpsr (state cpu)) cpu in
      let cpu := SwitchMode MODE_IRQ cpu in
      set_mask_irq true cpu in
  (* Jump to exception vector. *)
  let cpu := set_reg 15 0x18 cpu in
  RefillA cpu.

(** The return address of [SignalIrq], as its two branches compute it. *)
Definition irq_return_address (cpu : ARM7 Bus) : Z :=
  if f_thumb (cpsr (state cpu)) then get_reg 15 cpu else u32 (get_reg 15 cpu - 4).

(** *** Dispatch *)

(** The opcode tables [arm_lut] and [thumb_lut]: external collaborators.
    An entry is selected by its index and receives the raw instruction. *)
Variable arm_lut : Z -> Z -> ARM7 Bus -> ARM7 Bus.
Variable thumb_lut : Z -> Z -> ARM7 Bus -> ARM7 Bus.

(** The first half of a Thumb step: align r15, shift the pipeline, prefetch. *)
Definition prefetch_thumb (cpu : ARM7 Bus) : ARM7 Bus :=
  let cpu := set_reg 15 (Z.land (get_reg 15 cpu) (u32 (Z.lnot 1))) cpu in
  let cpu := set_pipe0 (pipe1 cpu) cpu in
  let '(h, cpu) := ReadHalf (get_reg 15 cpu) ACCESS_SEQ cpu in
  set_pipe1 h cpu.

(** The first half of an ARM step. *)
Definition prefetch_arm (cpu : ARM7 Bus) : ARM7 Bus :=
  let cpu := set_reg 15 (Z.land (get_reg 15 cpu) (u32 (Z.lnot 3))) cpu in
  let cpu := set_pipe0 (pipe1 cpu) cpu in
  let '(w, cpu) := ReadWord (get_reg 15 cpu) ACCESS_SEQ cpu in
  set_pipe1 w cpu.

(** [ARM7::Run], built without [DEBUGGER] (the breakpoint hook is compiled
    out). *)
Definition Run (cpu : ARM7 Bus) : ARM7 Bus :=
  let instruction := pipe0 cpu in
  if f_thumb (cpsr (state cpu)) then
    let cpu := prefetch_thumb cpu in
    thumb_lut (Z.shiftr instruction 6) instruction cpu
  else
    let cpu := prefetch_arm cpu in
    if CheckCondition (cpsr (state cpu)) (Condition_of_Z (Z.shiftr instruction 28)) then
      let hash := Z.lor (Z.land (Z.shiftr instruction 16) 0xFF0)
                        (Z.land (Z.shiftr instruction 4) 0x00F) in
      arm_lut hash instruction cpu
    else
      set_reg 15 (u32 (get_reg 15 cpu + 4)) cpu.

End Core.

(** ** Array shapes *)

(** The sizes the C declarations fix: [reg[16]], [bank[BANK_COUNT][7]],
    [spsr[BANK_COUNT]]. *)
Definition shape {Bus : Type} (cpu : ARM7 Bus) : nat * list nat * nat :=
  (length (reg (state cpu)), map length (bank (state cpu)), length (spsr (state cpu))).

Definition well_formed {Bus : Type} (cpu : ARM7 Bus) : Prop :=
  shape cpu = (16%nat, replicate BANK_COUNT 7%nat, BANK_COUNT).

(** ** Phases of [SwitchMode], named for the proofs *)

Section Phases.

Context {Bus : Type}.

(** The first loop: r8..r12 go to entries 2..6 of row [g]. *)
Definition save_gprs (g : nat) (cpu : ARM7 Bus) : ARM7 Bus :=
  foldl (fun cpu i => set_bank g (2 + i) (get_reg (8 + i) cpu) cpu) cpu (seq 0 5).

(** The second loop: r8..r12 come from entries 2..6 of row [g]. *)
Definition load_gprs (g : nat) (cpu : ARM7 Bus) : ARM7 Bus :=
  foldl (fun cpu i => set_reg (8 + i) (get_bank g (2 + i) cpu) cpu) cpu (seq 0 5).

Definition save_sp_lr (b : nat) (cpu : ARM7 Bus) : ARM7 Bus :=
  let cpu := set_bank b BANK_R13 (get_reg 13 cpu) cpu in
  set_bank b BANK_R14 (get_reg 14 cpu) cpu.

Definition load_sp_lr (b : nat) (cpu : ARM7 Bus) : ARM7 Bus :=
  let cpu := set_reg 13 (get_bank b BANK_R13 cpu) cpu in
  set_reg 14 (get_bank b BANK_R14 cpu) cpu.

(** The bank that holds r8..r12 for a mode whose bank is [b]. *)
Definition gpr_bank (b : Bank) : Bank :=
  if Bank_eqb b BANK_FIQ then BANK_FIQ else BANK_NONE.

(** Does a switch between banks [a] and [b] move r8..r12? *)
Definition swaps_gprs (a b : Bank) : bool :=
  Bank_eqb b BANK_FIQ || Bank_eqb a BANK_FIQ.

(** What [SwitchMode] does after the mode field is written, when the old
    bank [a] and the new bank [b] differ. *)
Definition swap_banks (a b : Bank) (cpu : ARM7 Bus) : ARM7 Bus :=
  let cpu :=
    if swaps_gprs a b
    then load_gprs (Bank_idx (gpr_bank b)) (save_gprs (Bank_idx (gpr_bank a)) cpu)
    else cpu in
  set_p_spsr b (load_sp_lr (Bank_idx b) (save_sp_lr (Bank_idx a) cpu)).

(** The effect on r13, r14 and [p_spsr] that a switch between two banks
    has: the old values are in the old bank's row, the registers hold the
    new bank's entries, [p_spsr] is the address of the new bank's slot.
    [cpu] is the core before the call, [cpu'] after it. *)
Definition sp_lr_swapped (new_mode : Z) (cpu cpu' : ARM7 Bus) : Prop :=
  let old_bank := ModeToBank (f_mode (cpsr (state cpu))) in
  let new_bank := ModeToBank new_mode in
  get_bank (Bank_idx old_bank) BANK_R13 cpu' = get_reg 13 cpu /\
  get_bank (Bank_idx old_bank) BANK_R14 cpu' = get_reg 14 cpu /\
  get_reg 13 cpu' = get_bank (Bank_idx new_bank) BANK_R13 cpu /\
  get_reg 14 cpu' = get_bank (Bank_idx new_bank) BANK_R14 cpu /\
  p_spsr cpu' = Some new_bank.

(** A sequence of register writes [state.reg[i] = x], first write first. *)
Definition write_regs (ws : list (nat * Z)) (cpu : ARM7 Bus) : ARM7 Bus :=
  foldl (fun cpu w => set_reg (fst w) (snd w) cpu) cpu ws.

End Phases.

(** ** The Thumb table index as the specification words it *)

(** "Thumb table indexed by bits 15..10 of the instruction halfword": the
    six-bit number made of those bits. *)
Definition thumb_index_bits_15_10 (instruction : Z) : Z :=
  Z.land (Z.shiftr instruction 10) 0x3F.

(** ** Concrete collaborators and states, used to run the definitions *)

(** A read-only memory: every read returns the content at the address. *)
#[export] Instance rom_interface : Interface (Z -> Z) := {
  bus_ReadWord address _ rom := (rom address, rom);
  bus_ReadHalf address _ rom := (rom address mod 2 ^ 16, rom)
}.

(** A memory whose content at [a] is [a] itself. *)
Definition sample_rom : Z -> Z := fun a => a.

(** A core with recognisable register and bank contents. *)
Definition sample_cpu (mode : Z) (thumb mask_irq : bool) (r15 instruction : Z) : ARM7 (Z -> Z) :=
  mkARM7 (Z -> Z)
    (mkState
       [100; 101; 102; 103; 104; 105; 106; 107; 108; 109; 110; 111; 112; 113; 114; r15]
       [[200; 201; 202; 203; 204; 205; 206];
        [210; 211; 212; 213; 214; 215; 216];
        [220; 221; 222; 223; 224; 225; 226];
        [230; 231; 232; 233; 234; 235; 236];
        [240; 241; 242; 243; 244; 245; 246];
        [250; 251; 252; 253; 254; 255; 256]]
       (mkStatusRegister mode thumb mask_irq false true false true 0)
       (replicate BANK_COUNT StatusRegister_zero))
    instruction 0xE1A00000 None sample_rom [].

(** An opcode table whose entry [k] records [k] in r0 and the instruction in
    r1: it makes the selected entry observable. *)
Definition probe_lut (index instruction : Z) (cpu : ARM7 (Z -> Z)) : ARM7 (Z -> Z) :=
  set_reg 1 instruction (set_reg 0 index cpu).

(** User mode, ARM state, interrupts enabled, word-aligned r15; slot 0 holds
    [MOVEQ r0, r0], whose condition EQ fails since the zero flag is clear. *)
Definition cpu_usr_arm : ARM7 (Z -> Z) :=
  sample_cpu MODE_USR false false 0x08000008 0x01A00000.

(** The same with bit 1 of r15 set. *)
Definition cpu_usr_misaligned : ARM7 (Z -> Z) :=
  sample_cpu MODE_USR false false 0x0800000A 0x01A00000.

(** User mode, Thumb state; slot 0 holds [MOV r0, #5]. *)
Definition cpu_usr_thumb : ARM7 (Z -> Z) :=
  sample_cpu MODE_USR true false 0x08000004 0x2005.

(** Supervisor mode with interrupts masked. *)
Definition cpu_svc_masked : ARM7 (Z -> Z) :=
  sample_cpu MODE_SVC false true 0x08000008 0xE1A00000.

(** [n] dispatch steps in a row, as the host's loop makes them. *)
Fixpoint Run_times {Bus : Type} `{Interface Bus}
    (arm_lut thumb_lut : Z -> Z -> ARM7 Bus -> ARM7 Bus) (n : nat) (cpu : ARM7 Bus) : ARM7 Bus :=
  match n with
  | O => cpu
  | S n => Run_times arm_lut thumb_lut n (Run arm_lut thumb_lut cpu)
  end.

(** A bus without memory behind it: every read returns 0xF0000000, a word
    whose condition field is NV. *)
#[export] Instance blank_interface : Interface unit := {
  bus_ReadWord _ _ b := (0xF0000000, b);
  bus_ReadHalf _ _ b := (0, b)
}.

(** The sample core in front of that bus, both pipeline slots filled from it. *)
Definition cpu_blank : ARM7 unit :=
  mkARM7 unit (state cpu_usr_arm) 0xF0000000 0xF0000000 None tt [].

(** Interrupt mode, ARM state, interrupts enabled again by the handler. *)
Definition cpu_irq_unmasked : ARM7 (Z -> Z) :=
  sample_cpu MODE_IRQ false false 0x08000008 0xE1A00000.

(** * Properties *)

(** ** Condition evaluation *)

(** C1: for each of the sixteen condition codes and each of the sixteen
    combinations of the flags n, z, c, v, [CheckCondition] returns the
    entry of the ARM truth table; AL is true and NV is false whatever the
    flags; the sixteen codes are all the values of a 4-bit field.  The
    result depends on the four flags only, and the function, taking the
    status register as a value, returns nothing else. *)
Theorem CheckCondition_truth_table :
  (forall (condition : Condition) (mode rest : Z) (thumb mask_irq n z c v : bool),
      CheckCondition (mkStatusRegister mode thumb mask_irq v c z n rest) condition
      = truth_table condition n z c v) /\
  (forall cpsr, CheckCondition cpsr COND_AL = true) /\
  (forall cpsr, CheckCondition cpsr COND_NV = false) /\
  (forall condition, exists k, 0 <= k < 16 /\ Condition_of_Z k = condition) /\
  map Condition_of_Z [0; 1; 2; 3; 4; 5; 6; 7; 8; 9; 10; 11; 12; 13; 14; 15]
  = [COND_EQ; COND_NE; COND_CS; COND_CC; COND_MI; COND_PL; COND_VS; COND_VC;
     COND_HI; COND_LS; COND_GE; COND_LT; COND_GT; COND_LE; COND_AL; COND_NV].
Proof.
  split; [|split; [|split; [|split]]].
  - intros condition mode rest thumb mask_irq n z c v.
    destruct condition; cbn [CheckCondition truth_table f_z f_c f_n f_v];
      try reflexivity.
    (* GT: !(z || n != v) against !z && n == v *)
    now rewrite negb_orb, negb_involutive.
  - reflexivity.
  - reflexivity.
  - intros condition.
    destruct condition;
      [ exists 0 | exists 1 | exists 2 | exists 3 | exists 4 | exists 5
      | exists 6 | exists 7 | exists 8 | exists 9 | exists 10 | exists 11
      | exists 12 | exists 13 | exists 14 | exists 15 ];
      (split; [lia | reflexivity]).
  - reflexivity.
Qed.

(** ** Reading back after a field update *)

Section Primitives.

Context {Bus : Type}.
Implicit Types (cpu : ARM7 Bus) (i j k l b : nat) (x : Z).

Lemma well_formed_reg cpu : well_formed cpu -> length (reg (state cpu)) = 16%nat.
Proof. unfold well_formed, shape. congruence. Qed.

Lemma well_formed_bank cpu : well_formed cpu -> length (bank (state cpu)) = 6%nat.
Proof.
  unfold well_formed, shape. intros Hs.
  assert (Hm : map length (bank (state cpu)) = replicate BANK_COUNT 7%nat) by congruence.
  apply (f_equal length) in Hm. now rewrite length_map in Hm.
Qed.

Lemma well_formed_row cpu b :
  well_formed cpu -> (b < 6)%nat -> length (bank (state cpu) !!! b) = 7%nat.
Proof.
  unfold well_formed, shape. intros Hs Hb.
  assert (Hm : map length (bank (state cpu)) = replicate BANK_COUNT 7%nat) by congruence.
  clear Hs. cbn in Hm.
  destruct (bank (state cpu)) as [|r0 [|r1 [|r2 [|r3 [|r4 [|r5 [|r6 rs]]]]]]];
    try discriminate Hm.
  injection Hm as H0 H1 H2 H3 H4 H5.
  destruct b as [|[|[|[|[|[|b]]]]]]; cbn; try assumption; lia.
Qed.

Lemma shape_set_reg i x cpu : shape (set_reg i x cpu) = shape cpu.
Proof. unfold shape; cbn. now rewrite length_insert. Qed.

Lemma shape_set_bank b j x cpu : shape (set_bank b j x cpu) = shape cpu.
Proof.
  unfold shape; cbn. do 2 f_equal.
  generalize (bank (state cpu)) as rows. revert b.
  induction b as [|b IH]; intros [|row rows]; cbn; try reflexivity.
  - now rewrite length_insert.
  - f_equal. apply IH.
Qed.

Lemma well_formed_set_reg i x cpu : well_formed (set_reg i x cpu) <-> well_formed cpu.
Proof. unfold well_formed. now rewrite shape_set_reg. Qed.

Lemma well_formed_set_bank b j x cpu : well_formed (set_bank b j x cpu) <-> well_formed cpu.
Proof. unfold well_formed. now rewrite shape_set_bank. Qed.

Lemma get_reg_set_reg i j x cpu :
  well_formed cpu -> (j < 16)%nat ->
  get_reg i (set_reg j x cpu) = if decide (i = j) then x else get_reg i cpu.
Proof.
  intros Hwf Hj. unfold get_reg; cbn.
  rewrite list_lookup_total_insert, (well_formed_reg _ Hwf).
  repeat case_decide; try reflexivity; lia.
Qed.

Lemma get_reg_set_bank i b j x cpu : get_reg i (set_bank b j x cpu) = get_reg i cpu.
Proof. reflexivity. Qed.

Lemma get_bank_set_reg k l i x cpu : get_bank k l (set_reg i x cpu) = get_bank k l cpu.
Proof. reflexivity. Qed.

Lemma get_bank_set_bank k l b j x cpu :
  well_formed cpu -> (b < 6)%nat -> (j < 7)%nat ->
  get_bank k l (set_bank b j x cpu)
  = if decide (k = b /\ l = j) then x else get_bank k l cpu.
Proof.
  intros Hwf Hb Hj. unfold get_bank; cbn.
  rewrite list_lookup_total_alter, (well_formed_bank _ Hwf).
  case_decide as Hk.
  - destruct Hk as [-> _].
    rewrite list_lookup_total_insert, (well_formed_row _ _ Hwf Hb).
    repeat case_decide; try reflexivity; lia.
  - case_decide as Hkl; [destruct Hkl as [-> _]; lia | reflexivity].
Qed.

End Primitives.

(** ** The phases of a bank swap *)

Lemma Bank_idx_lt (b : Bank) : (Bank_idx b < 6)%nat.
Proof. destruct b; cbn; lia. Qed.

Lemma Bank_idx_inj (a b : Bank) : Bank_idx a = Bank_idx b -> a = b.
Proof. destruct a, b; cbn; intros E; try reflexivity; discriminate E. Qed.

Lemma Bank_eqb_eq (a b : Bank) : Bank_eqb a b = true <-> a = b.
Proof. destruct a, b; cbn; split; intros E; try reflexivity; discriminate E. Qed.

Lemma Bank_eqb_neq (a b : Bank) : Bank_eqb a b = false <-> a <> b.
Proof.
  destruct a, b; cbn; split; intros E; try reflexivity;
    try discriminate E; try (intros E'; discriminate E'); now destruct E.
Qed.

Ltac shape_ok :=
  repeat first
    [ assumption
    | apply Bank_idx_lt
    | apply well_formed_set_reg
    | apply well_formed_set_bank
    | lia ].

Ltac split_cases :=
  repeat case_decide;
  repeat match goal with
         | E : _ /\ _ |- _ => destruct E
         end;
  subst; try reflexivity; try lia.

Section PhaseLemmas.

Context {Bus : Type}.
Implicit Types (cpu : ARM7 Bus) (i j k l b g : nat) (x : Z).

Lemma shape_save_gprs g cpu : shape (save_gprs g cpu) = shape cpu.
Proof. unfold save_gprs; cbn [foldl seq]. now rewrite !shape_set_bank. Qed.

Lemma shape_load_gprs g cpu : shape (load_gprs g cpu) = shape cpu.
Proof. unfold load_gprs; cbn [foldl seq]. now rewrite !shape_set_reg. Qed.

Lemma shape_save_sp_lr b cpu : shape (save_sp_lr b cpu) = shape cpu.
Proof. unfold save_sp_lr; cbv zeta. now rewrite !shape_set_bank. Qed.

Lemma shape_load_sp_lr b cpu : shape (load_sp_lr b cpu) = shape cpu.
Proof. unfold load_sp_lr; cbv zeta. now rewrite !shape_set_reg. Qed.

Lemma get_reg_save_gprs i g cpu : get_reg i (save_gprs g cpu) = get_reg i cpu.
Proof. reflexivity. Qed.

Lemma get_bank_load_gprs k l g cpu : get_bank k l (load_gprs g cpu) = get_bank k l cpu.
Proof. reflexivity. Qed.

Lemma get_reg_save_sp_lr i b cpu : get_reg i (save_sp_lr b cpu) = get_reg i cpu.
Proof. reflexivity. Qed.

Lemma get_bank_load_sp_lr k l b cpu : get_bank k l (load_sp_lr b cpu) = get_bank k l cpu.
Proof. reflexivity. Qed.

Lemma get_bank_save_gprs k l g cpu :
  well_formed cpu -> (g < 6)%nat ->
  get_bank k l (save_gprs g cpu)
  = if decide (k = g /\ (2 <= l <= 6)%nat) then get_reg (l + 6) cpu
    else get_bank k l cpu.
Proof.
  intros Hwf Hg. unfold save_gprs; cbn [foldl seq Nat.add].
  rewrite !get_bank_set_bank by shape_ok.
  rewrite !get_reg_set_bank.
  split_cases.
Qed.

Lemma get_reg_load_gprs i g cpu :
  well_formed cpu ->
  get_reg i (load_gprs g cpu)
  = if decide (8 <= i <= 12)%nat then get_bank g (i - 6) cpu else get_reg i cpu.
Proof.
  intros Hwf. unfold load_gprs; cbn [foldl seq Nat.add].
  rewrite !get_reg_set_reg by shape_ok.
  rewrite !get_bank_set_reg.
  split_cases.
Qed.

Lemma get_bank_save_sp_lr k l b cpu :
  well_formed cpu -> (b < 6)%nat ->
  get_bank k l (save_sp_lr b cpu)
  = if decide (k = b /\ l = BANK_R13) then get_reg 13 cpu
    else if decide (k = b /\ l = BANK_R14) then get_reg 14 cpu
    else get_bank k l cpu.
Proof.
  intros Hwf Hb. unfold save_sp_lr, BANK_R13, BANK_R14; cbv zeta.
  rewrite !get_bank_set_bank by shape_ok.
  rewrite !get_reg_set_bank.
  split_cases.
Qed.

Lemma get_reg_load_sp_lr i b cpu :
  well_formed cpu ->
  get_reg i (load_sp_lr b cpu)
  = if decide (i = 13%nat) then get_bank b BANK_R13 cpu
    else if decide (i = 14%nat) then get_bank b BANK_R14 cpu
    else get_reg i cpu.
Proof.
  intros Hwf. unfold load_sp_lr; cbv zeta.
  rewrite !get_reg_set_reg by shape_ok.
  rewrite !get_bank_set_reg.
  split_cases.
Qed.

End PhaseLemmas.

(** ** [ModeToBank] *)

Lemma ModeToBank_FIQ (m : Z) : ModeToBank m = BANK_FIQ <-> m = MODE_FIQ.
Proof.
  unfold ModeToBank, MODE_USR, MODE_SYS, MODE_FIQ, MODE_IRQ, MODE_SVC, MODE_ABT, MODE_UND.
  repeat match goal with
         | |- context [?a =? ?b] => destruct (Z.eqb_spec a b)
         end; cbn; split; intros E; try discriminate E; try reflexivity; lia.
Qed.

Lemma ModeToBank_IRQ (m : Z) : ModeToBank m = BANK_IRQ <-> m = MODE_IRQ.
Proof.
  unfold ModeToBank, MODE_USR, MODE_SYS, MODE_FIQ, MODE_IRQ, MODE_SVC, MODE_ABT, MODE_UND.
  repeat match goal with
         | |- context [?a =? ?b] => destruct (Z.eqb_spec a b)
         end; cbn; split; intros E; try discriminate E; try reflexivity; lia.
Qed.

Lemma land_31_small (m : Z) : 0 <= m < 32 -> Z.land m 31 = m.
Proof.
  intros Hm. change 31 with (Z.ones 5).
  rewrite Z.land_ones by lia. apply Z.mod_small. cbn; lia.
Qed.

(** ** [SwitchMode] in terms of its phases *)

Section SwitchModeLemmas.

Context {Bus : Type}.
Implicit Types (cpu : ARM7 Bus) (i j k l : nat) (a b : Bank) (x : Z).

Lemma SwitchMode_same new_mode cpu :
  new_mode = f_mode (cpsr (state cpu)) -> SwitchMode new_mode cpu = cpu.
Proof. intros ->. unfold SwitchMode. now rewrite Z.eqb_refl. Qed.

Lemma SwitchMode_same_bank new_mode cpu :
  new_mode <> f_mode (cpsr (state cpu)) ->
  ModeToBank new_mode = ModeToBank (f_mode (cpsr (state cpu))) ->
  SwitchMode new_mode cpu = set_mode new_mode cpu.
Proof.
  intros Hne Hb. unfold SwitchMode.
  apply Z.eqb_neq in Hne. rewrite Hne. cbv zeta.
  rewrite Hb. now rewrite (proj2 (Bank_eqb_eq _ _) eq_refl).
Qed.

Lemma SwitchMode_swap new_mode cpu :
  new_mode <> f_mode (cpsr (state cpu)) ->
  ModeToBank new_mode <> ModeToBank (f_mode (cpsr (state cpu))) ->
  SwitchMode new_mode cpu
  = swap_banks (ModeToBank (f_mode (cpsr (state cpu)))) (ModeToBank new_mode)
      (set_mode new_mode cpu).
Proof.
  intros Hne Hb. unfold SwitchMode.
  apply Z.eqb_neq in Hne. rewrite Hne.
  apply Bank_eqb_neq in Hb.
  generalize dependent (ModeToBank (f_mode (cpsr (state cpu)))).
  generalize (ModeToBank new_mode).
  generalize (set_mode new_mode cpu).
  intros c b a Hb.
  cbv beta zeta delta [swap_banks swaps_gprs gpr_bank save_gprs load_gprs
                                  save_sp_lr load_sp_lr].
  rewrite Hb.
  destruct (Bank_eqb b BANK_FIQ), (Bank_eqb a BANK_FIQ); reflexivity.
Qed.

Lemma shape_swap_banks a b cpu : shape (swap_banks a b cpu) = shape cpu.
Proof.
  unfold swap_banks; cbv zeta.
  change (shape (set_p_spsr b ?c)) with (shape c).
  rewrite shape_load_sp_lr, shape_save_sp_lr.
  destruct (swaps_gprs a b); [|reflexivity].
  now rewrite shape_load_gprs, shape_save_gprs.
Qed.

Lemma well_formed_swap_banks a b cpu :
  well_formed (swap_banks a b cpu) <-> well_formed cpu.
Proof. unfold well_formed. now rewrite shape_swap_banks. Qed.

Lemma well_formed_SwitchMode new_mode cpu :
  well_formed cpu -> well_formed (SwitchMode new_mode cpu).
Proof.
  intros Hwf.
  destruct (Z.eq_dec new_mode (f_mode (cpsr (state cpu)))) as [E|Hne].
  - now rewrite SwitchMode_same.
  - destruct (decide (ModeToBank new_mode = ModeToBank (f_mode (cpsr (state cpu)))))
      as [E|Hb].
    + now rewrite SwitchMode_same_bank.
    + rewrite SwitchMode_swap by assumption. now apply well_formed_swap_banks.
Qed.

End SwitchModeLemmas.

(** ** What a bank swap leaves in the registers and in the banks *)

Create Rewrite HintDb shape.

#[export] Hint Rewrite @shape_set_reg @shape_set_bank @shape_save_gprs @shape_load_gprs
  @shape_save_sp_lr @shape_load_sp_lr : shape.

Ltac wf_ok :=
  first
    [ assumption
    | apply Bank_idx_lt
    | lia
    | unfold well_formed in *; autorewrite with shape; assumption ].

Ltac close_cases :=
  repeat case_decide;
  repeat match goal with
         | E : _ /\ _ |- _ => destruct E
         end;
  subst; try reflexivity; try lia; try discriminate;
  try (exfalso; intuition (lia || congruence)).

Section SwapLemmas.

Context {Bus : Type}.
Implicit Types (cpu : ARM7 Bus) (i j k l : nat) (a b : Bank) (x : Z).

Lemma get_reg_swap_banks i a b cpu :
  well_formed cpu -> a <> b ->
  get_reg i (swap_banks a b cpu)
  = if decide (i = 13%nat) then get_bank (Bank_idx b) BANK_R13 cpu
    else if decide (i = 14%nat) then get_bank (Bank_idx b) BANK_R14 cpu
    else if decide (swaps_gprs a b = true /\ (8 <= i <= 12)%nat)
         then get_bank (Bank_idx (gpr_bank b)) (i - 6) cpu
    else get_reg i cpu.
Proof.
  intros Hwf Hab. unfold swap_banks; cbv zeta.
  change (get_reg i (set_p_spsr b ?c)) with (get_reg i c).
  destruct a, b; try congruence; clear Hab;
    cbn [swaps_gprs gpr_bank Bank_eqb orb Bank_idx];
    rewrite get_reg_load_sp_lr by wf_ok;
    rewrite !get_bank_save_sp_lr, !get_reg_save_sp_lr by wf_ok;
    rewrite ?get_bank_load_gprs, ?get_reg_load_gprs by wf_ok;
    rewrite ?get_bank_save_gprs, ?get_reg_save_gprs by wf_ok;
    unfold BANK_R13, BANK_R14;
    close_cases.
Qed.

Lemma get_bank_swap_banks k l a b cpu :
  well_formed cpu -> a <> b ->
  get_bank k l (swap_banks a b cpu)
  = if decide (k = Bank_idx a /\ l = BANK_R13) then get_reg 13 cpu
    else if decide (k = Bank_idx a /\ l = BANK_R14) then get_reg 14 cpu
    else if decide (swaps_gprs a b = true /\ k = Bank_idx (gpr_bank a) /\ (2 <= l <= 6)%nat)
         then get_reg (l + 6) cpu
    else get_bank k l cpu.
Proof.
  intros Hwf Hab. unfold swap_banks; cbv zeta.
  change (get_bank k l (set_p_spsr b ?c)) with (get_bank k l c).
  destruct a, b; try congruence; clear Hab;
    cbn [swaps_gprs gpr_bank Bank_eqb orb Bank_idx];
    rewrite get_bank_load_sp_lr;
    rewrite !get_bank_save_sp_lr by wf_ok;
    rewrite ?get_bank_load_gprs, ?get_reg_load_gprs by wf_ok;
    rewrite ?get_bank_save_gprs, ?get_reg_save_gprs by wf_ok;
    unfold BANK_R13, BANK_R14;
    close_cases.
Qed.

End SwapLemmas.

(** ** What a mode switch leaves untouched *)

Section Frame.

Context {Bus : Type}.
Implicit Types (cpu : ARM7 Bus) (i j k l : nat) (a b : Bank) (x : Z).

Lemma get_reg_set_mode i m cpu : get_reg i (set_mode m cpu) = get_reg i cpu.
Proof. reflexivity. Qed.

Lemma get_bank_set_mode k l m cpu : get_bank k l (set_mode m cpu) = get_bank k l cpu.
Proof. reflexivity. Qed.

Lemma shape_set_mode m cpu : shape (set_mode m cpu) = shape cpu.
Proof. reflexivity. Qed.

Lemma f_mode_set_mode m cpu : f_mode (cpsr (state (set_mode m cpu))) = Z.land m 31.
Proof. reflexivity. Qed.

Lemma cpsr_save_gprs g cpu : cpsr (state (save_gprs g cpu)) = cpsr (state cpu).
Proof. reflexivity. Qed.

Lemma cpsr_swap_banks a b cpu : cpsr (state (swap_banks a b cpu)) = cpsr (state cpu).
Proof. unfold swap_banks. destruct (swaps_gprs a b); reflexivity. Qed.

Lemma spsr_swap_banks a b cpu : spsr (state (swap_banks a b cpu)) = spsr (state cpu).
Proof. unfold swap_banks. destruct (swaps_gprs a b); reflexivity. Qed.

Lemma p_spsr_swap_banks a b cpu : p_spsr (swap_banks a b cpu) = Some b.
Proof. reflexivity. Qed.

Lemma outside_swap_banks a b cpu :
  pipe0 (swap_banks a b cpu) = pipe0 cpu /\
  pipe1 (swap_banks a b cpu) = pipe1 cpu /\
  interface (swap_banks a b cpu) = interface cpu /\
  bus_log (swap_banks a b cpu) = bus_log cpu.
Proof. unfold swap_banks. destruct (swaps_gprs a b); repeat split. Qed.

(** A mode switch reaches neither the pipeline nor the memory interface,
    and writes no status register but the mode field of [cpsr]. *)
Lemma SwitchMode_frame new_mode cpu :
  pipe0 (SwitchMode new_mode cpu) = pipe0 cpu /\
  pipe1 (SwitchMode new_mode cpu) = pipe1 cpu /\
  interface (SwitchMode new_mode cpu) = interface cpu /\
  bus_log (SwitchMode new_mode cpu) = bus_log cpu /\
  spsr (state (SwitchMode new_mode cpu)) = spsr (state cpu) /\
  cpsr (state (SwitchMode new_mode cpu))
  = cpsr (state (if new_mode =? f_mode (cpsr (state cpu)) then cpu
                 else set_mode new_mode cpu)).
Proof.
  destruct (Z.eqb_spec new_mode (f_mode (cpsr (state cpu)))) as [E|Hne].
  - rewrite SwitchMode_same by assumption. repeat split.
  - destruct (decide (ModeToBank new_mode = ModeToBank (f_mode (cpsr (state cpu)))))
      as [E|Hb].
    + rewrite SwitchMode_same_bank by assumption. repeat split.
    + rewrite SwitchMode_swap by assumption.
      rewrite cpsr_swap_banks, spsr_swap_banks.
      destruct (outside_swap_banks (ModeToBank (f_mode (cpsr (state cpu))))
                  (ModeToBank new_mode) (set_mode new_mode cpu)) as (-> & -> & -> & ->).
      repeat split.
Qed.

Lemma f_mode_SwitchMode new_mode cpu :
  0 <= new_mode < 32 -> f_mode (cpsr (state (SwitchMode new_mode cpu))) = new_mode.
Proof.
  intros Hm.
  destruct (SwitchMode_frame new_mode cpu) as (_ & _ & _ & _ & _ & ->).
  destruct (Z.eqb_spec new_mode (f_mode (cpsr (state cpu)))) as [E|Hne].
  - now symmetry.
  - rewrite f_mode_set_mode. now apply land_31_small.
Qed.

Lemma shape_write_regs ws cpu : shape (write_regs ws cpu) = shape cpu.
Proof.
  unfold write_regs. revert cpu.
  induction ws as [|w ws IH]; intros cpu; cbn [foldl]; [reflexivity|].
  now rewrite IH, shape_set_reg.
Qed.

Lemma get_bank_write_regs k l ws cpu : get_bank k l (write_regs ws cpu) = get_bank k l cpu.
Proof.
  unfold write_regs. revert cpu.
  induction ws as [|w ws IH]; intros cpu; cbn [foldl]; [reflexivity|].
  now rewrite IH.
Qed.

Lemma cpsr_write_regs ws cpu : cpsr (state (write_regs ws cpu)) = cpsr (state cpu).
Proof.
  unfold write_regs. revert cpu.
  induction ws as [|w ws IH]; intros cpu; cbn [foldl]; [reflexivity|].
  now rewrite IH.
Qed.

(** The last write to a register is the value read back. *)
Lemma get_reg_write_regs_last ws i x cpu :
  well_formed cpu -> (i < 16)%nat ->
  get_reg i (write_regs (ws ++ [(i, x)]) cpu) = x.
Proof.
  intros Hwf Hi. unfold write_regs. rewrite foldl_app. cbn [foldl fst snd].
  rewrite get_reg_set_reg; [now rewrite decide_True| |assumption].
  change (well_formed (write_regs ws cpu)).
  unfold well_formed. now rewrite shape_write_regs.
Qed.

End Frame.

#[export] Hint Rewrite @shape_swap_banks @shape_set_mode @shape_write_regs : shape.

(** ** Mode switching: the claims *)

Section SwitchModeClaims.

Context {Bus : Type}.
Implicit Types (cpu : ARM7 Bus) (i j k l : nat) (a b : Bank) (x : Z).

Lemma SwitchMode_swap_from new_mode old_mode a b cpu :
  f_mode (cpsr (state cpu)) = old_mode ->
  ModeToBank old_mode = a -> ModeToBank new_mode = b -> a <> b ->
  SwitchMode new_mode cpu = swap_banks a b (set_mode new_mode cpu).
Proof.
  intros <- <- <- Hab. apply SwitchMode_swap; congruence.
Qed.

(** Switching to [B] and back to the mode the core was in gives every
    register its value back. *)
Lemma SwitchMode_there_and_back (B : Z) cpu i :
  well_formed cpu -> f_mode (cpsr (state cpu)) <> B -> 0 <= B < 32 ->
  get_reg i (SwitchMode (f_mode (cpsr (state cpu))) (SwitchMode B cpu)) = get_reg i cpu.
Proof.
  intros Hwf HAB HB.
  set (A := f_mode (cpsr (state cpu))) in *.
  destruct (decide (ModeToBank B = ModeToBank A)) as [E|Hb].
  - rewrite (SwitchMode_same_bank B cpu) by (fold A; congruence).
    rewrite SwitchMode_same_bank; [reflexivity | |];
      rewrite f_mode_set_mode, land_31_small by assumption; congruence.
  - rewrite (SwitchMode_swap_from B A (ModeToBank A) (ModeToBank B) cpu)
      by (reflexivity || congruence).
    rewrite (SwitchMode_swap_from A B (ModeToBank B) (ModeToBank A));
      [ | rewrite cpsr_swap_banks, f_mode_set_mode; now apply land_31_small
        | reflexivity | reflexivity | assumption ].
    generalize dependent (ModeToBank A). generalize dependent (ModeToBank B).
    intros b a Hab.
    rewrite (get_reg_swap_banks i b a) by first [wf_ok | congruence].
    rewrite !get_bank_set_mode, get_reg_set_mode.
    rewrite !(get_bank_swap_banks _ _ a b), (get_reg_swap_banks i a b)
      by first [wf_ok | congruence].
    rewrite !get_bank_set_mode, !get_reg_set_mode.
    destruct a, b; try congruence; clear Hab;
      cbn [swaps_gprs gpr_bank Bank_eqb orb Bank_idx];
      unfold BANK_R13, BANK_R14; close_cases;
      f_equal; lia.
Qed.

(** C4: for distinct modes A and B and a core in mode A, [SwitchMode(B)]
    followed by [SwitchMode(A)] gives r13, r14 and r8..r12 (hence also when
    A or B is the fast-interrupt mode) the values they had before the first
    switch.  A and B range over all values of the 5-bit mode field, the
    seven named modes among them. *)
Theorem SwitchMode_round_trip (A B : Z) cpu :
  well_formed cpu ->
  f_mode (cpsr (state cpu)) = A -> A <> B -> 0 <= B < 32 ->
  get_reg 13 (SwitchMode A (SwitchMode B cpu)) = get_reg 13 cpu /\
  get_reg 14 (SwitchMode A (SwitchMode B cpu)) = get_reg 14 cpu /\
  (forall i, (8 <= i <= 12)%nat ->
             get_reg i (SwitchMode A (SwitchMode B cpu)) = get_reg i cpu).
Proof.
  intros Hwf <- HAB HB.
  repeat split; intros; now apply SwitchMode_there_and_back.
Qed.

(** Leaving the fast-interrupt mode: r8..r12 are taken from entries 2..6 of
    the row of [BANK_NONE], whatever was written to the registers in
    between; coming back, they are what they were on leaving. *)
Lemma SwitchMode_leave_FIQ (M1 : Z) (ws : list (nat * Z)) cpu i :
  well_formed cpu ->
  f_mode (cpsr (state cpu)) = MODE_FIQ -> M1 <> MODE_FIQ -> 0 <= M1 < 32 ->
  (8 <= i <= 12)%nat ->
  get_reg i (SwitchMode M1 (write_regs ws cpu)) = get_bank (Bank_idx BANK_NONE) (i - 6) cpu /\
  get_reg i (SwitchMode MODE_FIQ (SwitchMode M1 (write_regs ws cpu)))
  = get_reg i (write_regs ws cpu).
Proof.
  intros Hwf Hm HM1 Hr Hi.
  assert (Hb : BANK_FIQ <> ModeToBank M1).
  { intros E. symmetry in E. now apply ModeToBank_FIQ in E. }
  assert (Hwf2 : well_formed (write_regs ws cpu)) by wf_ok.
  rewrite (SwitchMode_swap_from M1 MODE_FIQ BANK_FIQ (ModeToBank M1));
    [ | now rewrite cpsr_write_regs | reflexivity | reflexivity | assumption ].
  rewrite (SwitchMode_swap_from MODE_FIQ M1 (ModeToBank M1) BANK_FIQ);
    [ | rewrite cpsr_swap_banks, f_mode_set_mode; now apply land_31_small
      | reflexivity | reflexivity | congruence ].
  generalize dependent (ModeToBank M1). intros b Hb.
  rewrite (get_reg_swap_banks i b BANK_FIQ) by first [wf_ok | congruence].
  rewrite !get_bank_set_mode, get_reg_set_mode.
  rewrite !(get_bank_swap_banks _ _ BANK_FIQ b), (get_reg_swap_banks i BANK_FIQ b)
    by first [wf_ok | congruence].
  rewrite !get_bank_set_mode, !get_reg_set_mode, !get_bank_write_regs.
  destruct b; try congruence; clear Hb;
    cbn [swaps_gprs gpr_bank Bank_eqb orb Bank_idx];
    unfold BANK_R13, BANK_R14; split; close_cases; f_equal; lia.
Qed.

(** Entering the fast-interrupt mode: r8..r12 are kept in entries 2..6 of
    the row of [BANK_NONE]. *)
Lemma SwitchMode_enter_FIQ cpu i :
  well_formed cpu -> f_mode (cpsr (state cpu)) <> MODE_FIQ -> (8 <= i <= 12)%nat ->
  get_bank (Bank_idx BANK_NONE) (i - 6) (SwitchMode MODE_FIQ cpu) = get_reg i cpu.
Proof.
  intros Hwf Hm Hi.
  assert (Hb : ModeToBank (f_mode (cpsr (state cpu))) <> BANK_FIQ).
  { intros E. now apply ModeToBank_FIQ in E. }
  rewrite (SwitchMode_swap_from MODE_FIQ _ _ BANK_FIQ cpu eq_refl eq_refl eq_refl Hb).
  generalize dependent (ModeToBank (f_mode (cpsr (state cpu)))). intros a Ha.
  rewrite (get_bank_swap_banks _ _ a BANK_FIQ) by first [wf_ok | congruence].
  rewrite get_bank_set_mode, !get_reg_set_mode.
  destruct a; try congruence; clear Ha;
    cbn [swaps_gprs gpr_bank Bank_eqb orb Bank_idx];
    unfold BANK_R13, BANK_R14; close_cases; f_equal; lia.
Qed.

(** C5: enter the fast-interrupt mode from any other mode, write any values
    to registers there (r8..r12 among them), and switch to any other mode
    M1: M1 sees in r8..r12 the values from before the fast-interrupt mode
    was entered.  Switching back into the fast-interrupt mode shows the
    written values again. *)
Theorem SwitchMode_FIQ_isolation (M1 : Z) (ws : list (nat * Z)) cpu :
  well_formed cpu ->
  f_mode (cpsr (state cpu)) <> MODE_FIQ -> M1 <> MODE_FIQ -> 0 <= M1 < 32 ->
  f_mode (cpsr (state (write_regs ws (SwitchMode MODE_FIQ cpu)))) = MODE_FIQ /\
  (forall i, (8 <= i <= 12)%nat ->
     get_reg i (SwitchMode M1 (write_regs ws (SwitchMode MODE_FIQ cpu)))
     = get_reg i cpu) /\
  (forall i, (8 <= i <= 12)%nat ->
     get_reg i (SwitchMode MODE_FIQ
                  (SwitchMode M1 (write_regs ws (SwitchMode MODE_FIQ cpu))))
     = get_reg i (write_regs ws (SwitchMode MODE_FIQ cpu))).
Proof.
  intros Hwf Hm HM1 Hr.
  assert (Hfiq : f_mode (cpsr (state (SwitchMode MODE_FIQ cpu))) = MODE_FIQ).
  { apply f_mode_SwitchMode. unfold MODE_FIQ. lia. }
  assert (Hwf1 : well_formed (SwitchMode MODE_FIQ cpu))
    by now apply well_formed_SwitchMode.
  split; [now rewrite cpsr_write_regs|].
  split; intros i Hi;
    destruct (SwitchMode_leave_FIQ M1 ws (SwitchMode MODE_FIQ cpu) i Hwf1 Hfiq HM1 Hr Hi)
      as [Hleave Hback].
  - rewrite Hleave. now apply SwitchMode_enter_FIQ.
  - exact Hback.
Qed.

(** C8, amended: when the bank of [new_mode] differs from the bank of the
    active mode, [SwitchMode(new_mode)] saves r13 and r14 in the old bank,
    loads them from the new bank, points [p_spsr] at the new bank's
    saved-status slot and writes the mode field. *)
Theorem SwitchMode_swaps_sp_lr (new_mode : Z) cpu :
  well_formed cpu ->
  ModeToBank new_mode <> ModeToBank (f_mode (cpsr (state cpu))) ->
  sp_lr_swapped new_mode cpu (SwitchMode new_mode cpu) /\
  f_mode (cpsr (state (SwitchMode new_mode cpu))) = Z.land new_mode 31.
Proof.
  intros Hwf Hb.
  rewrite (SwitchMode_swap_from new_mode _ _ _ cpu eq_refl eq_refl eq_refl)
    by congruence.
  unfold sp_lr_swapped.
  rewrite cpsr_swap_banks, f_mode_set_mode, p_spsr_swap_banks.
  generalize dependent (ModeToBank (f_mode (cpsr (state cpu)))).
  generalize (ModeToBank new_mode). intros b a Hab.
  rewrite !(get_bank_swap_banks _ _ a b), !(get_reg_swap_banks _ a b)
    by first [wf_ok | congruence].
  rewrite !get_bank_set_mode, !get_reg_set_mode.
  unfold BANK_R13, BANK_R14.
  repeat split; close_cases.
Qed.

(** C9: when [new_mode] differs from the active mode and both have the
    same bank (user and system mode share [BANK_NONE]), [SwitchMode] writes
    the mode field of [cpsr] and nothing else. *)
Theorem SwitchMode_same_bank_only_mode (new_mode : Z) cpu :
  new_mode <> f_mode (cpsr (state cpu)) ->
  ModeToBank new_mode = ModeToBank (f_mode (cpsr (state cpu))) ->
  reg (state (SwitchMode new_mode cpu)) = reg (state cpu) /\
  bank (state (SwitchMode new_mode cpu)) = bank (state cpu) /\
  spsr (state (SwitchMode new_mode cpu)) = spsr (state cpu) /\
  p_spsr (SwitchMode new_mode cpu) = p_spsr cpu /\
  pipe0 (SwitchMode new_mode cpu) = pipe0 cpu /\
  pipe1 (SwitchMode new_mode cpu) = pipe1 cpu /\
  interface (SwitchMode new_mode cpu) = interface cpu /\
  bus_log (SwitchMode new_mode cpu) = bus_log cpu /\
  cpsr (state (SwitchMode new_mode cpu))
  = mkStatusRegister (Z.land new_mode 31)
      (f_thumb (cpsr (state cpu))) (f_mask_irq (cpsr (state cpu)))
      (f_v (cpsr (state cpu))) (f_c (cpsr (state cpu)))
      (f_z (cpsr (state cpu))) (f_n (cpsr (state cpu)))
      (f_rest (cpsr (state cpu))) /\
  ModeToBank MODE_USR = ModeToBank MODE_SYS.
Proof.
  intros Hne Hb. rewrite SwitchMode_same_bank by assumption.
  repeat split.
Qed.

End SwitchModeClaims.

(** ** Interrupt entry *)

Section SignalIrqLemmas.

Context {Bus : Type} `{Interface Bus}.
Implicit Types (cpu : ARM7 Bus) (i j k l : nat) (a b : Bank) (x : Z).

Lemma interface_ReadWord_eq address kind cpu :
  interface_ReadWord address kind cpu
  = (fst (bus_ReadWord address kind (interface cpu)),
     mkARM7 Bus (state cpu) (pipe0 cpu) (pipe1 cpu) (p_spsr cpu)
       (snd (bus_ReadWord address kind (interface cpu)))
       (bus_log cpu ++ [mkBusAccess WORD address kind])).
Proof.
  unfold interface_ReadWord.
  now destruct (bus_ReadWord address kind (interface cpu)).
Qed.

Lemma interface_ReadHalf_eq address kind cpu :
  interface_ReadHalf address kind cpu
  = (fst (bus_ReadHalf address kind (interface cpu)),
     mkARM7 Bus (state cpu) (pipe0 cpu) (pipe1 cpu) (p_spsr cpu)
       (snd (bus_ReadHalf address kind (interface cpu)))
       (bus_log cpu ++ [mkBusAccess HALF address kind])).
Proof.
  unfold interface_ReadHalf.
  now destruct (bus_ReadHalf address kind (interface cpu)).
Qed.

(** [RefillA] written out: two word reads, then r15 advanced by 8. *)
Lemma RefillA_eq cpu :
  RefillA cpu
  = mkARM7 Bus
      (state (set_reg 15 (u32 (get_reg 15 cpu + 8)) cpu))
      (fst (bus_ReadWord (u32 (get_reg 15 cpu + 0)) ACCESS_NSEQ (interface cpu)))
      (fst (bus_ReadWord (u32 (get_reg 15 cpu + 4)) ACCESS_SEQ
              (snd (bus_ReadWord (u32 (get_reg 15 cpu + 0)) ACCESS_NSEQ (interface cpu)))))
      (p_spsr cpu)
      (snd (bus_ReadWord (u32 (get_reg 15 cpu + 4)) ACCESS_SEQ
              (snd (bus_ReadWord (u32 (get_reg 15 cpu + 0)) ACCESS_NSEQ (interface cpu)))))
      (bus_log cpu ++ [mkBusAccess WORD (u32 (get_reg 15 cpu + 0)) ACCESS_NSEQ;
                       mkBusAccess WORD (u32 (get_reg 15 cpu + 4)) ACCESS_SEQ]).
Proof.
  unfold RefillA.
  rewrite interface_ReadWord_eq. cbv beta iota zeta.
  rewrite interface_ReadWord_eq. cbv beta iota zeta.
  unfold set_reg, set_pipe1, set_pipe0, with_state, get_reg.
  cbn [state pipe0 pipe1 p_spsr interface bus_log].
  rewrite <- app_assoc. reflexivity.
Qed.

Lemma set_thumb_same t cpu : f_thumb (cpsr (state cpu)) = t -> set_thumb t cpu = cpu.
Proof.
  destruct cpu as [[r bk [m th mi v c z n rest] sp] p0 p1 ps itf lg].
  cbn. now intros ->.
Qed.

Lemma cpsr_SwitchMode_flags new_mode cpu :
  f_thumb (cpsr (state (SwitchMode new_mode cpu))) = f_thumb (cpsr (state cpu)) /\
  f_mask_irq (cpsr (state (SwitchMode new_mode cpu))) = f_mask_irq (cpsr (state cpu)) /\
  f_n (cpsr (state (SwitchMode new_mode cpu))) = f_n (cpsr (state cpu)) /\
  f_z (cpsr (state (SwitchMode new_mode cpu))) = f_z (cpsr (state cpu)) /\
  f_c (cpsr (state (SwitchMode new_mode cpu))) = f_c (cpsr (state cpu)) /\
  f_v (cpsr (state (SwitchMode new_mode cpu))) = f_v (cpsr (state cpu)).
Proof.
  destruct (SwitchMode_frame new_mode cpu) as (_ & _ & _ & _ & _ & ->).
  destruct (new_mode =? f_mode (cpsr (state cpu))); repeat split.
Qed.

(** With the mask clear, [SignalIrq] is this chain of updates; in ARM state
    the write [thumb = 0] of the Thumb branch would change nothing. *)
Lemma SignalIrq_unmasked cpu :
  f_mask_irq (cpsr (state cpu)) = false ->
  SignalIrq cpu
  = RefillA
      (set_reg 15 0x18
         (set_mask_irq true
            (set_thumb false
               (SwitchMode MODE_IRQ
                  (set_spsr (Bank_idx BANK_IRQ) (cpsr (state cpu))
                     (set_bank (Bank_idx BANK_IRQ) BANK_R14 (irq_return_address cpu) cpu)))))).
Proof.
  intros Hmask. unfold SignalIrq, irq_return_address. rewrite Hmask.
  destruct (f_thumb (cpsr (state cpu))) eqn:Ht; cbv zeta; [reflexivity|].
  rewrite (set_thumb_same false); [reflexivity|].
  now rewrite (proj1 (cpsr_SwitchMode_flags _ _)).
Qed.

(** [SwitchMode(MODE_IRQ)] leaves the link-register slot of the interrupt
    bank as it finds it. *)
Lemma SwitchMode_IRQ_keeps_slot cpu :
  well_formed cpu ->
  get_bank (Bank_idx BANK_IRQ) BANK_R14 (SwitchMode MODE_IRQ cpu)
  = get_bank (Bank_idx BANK_IRQ) BANK_R14 cpu.
Proof.
  intros Hwf.
  destruct (Z.eq_dec MODE_IRQ (f_mode (cpsr (state cpu)))) as [E|Hne].
  - now rewrite SwitchMode_same.
  - assert (Hb : ModeToBank (f_mode (cpsr (state cpu))) <> BANK_IRQ).
    { intros E. apply ModeToBank_IRQ in E. congruence. }
    rewrite (SwitchMode_swap_from MODE_IRQ _ _ BANK_IRQ cpu eq_refl eq_refl eq_refl Hb).
    generalize dependent (ModeToBank (f_mode (cpsr (state cpu)))). intros a Ha.
    rewrite (get_bank_swap_banks _ _ a BANK_IRQ) by first [wf_ok | congruence].
    rewrite get_bank_set_mode, !get_reg_set_mode.
    destruct a; try congruence; clear Ha;
      cbn [swaps_gprs gpr_bank Bank_eqb orb Bank_idx];
      unfold BANK_R13, BANK_R14; close_cases.
Qed.

(** Coming from another mode, [SwitchMode(MODE_IRQ)] loads r14 from that
    slot. *)
Lemma SwitchMode_IRQ_loads_lr cpu :
  well_formed cpu -> f_mode (cpsr (state cpu)) <> MODE_IRQ ->
  get_reg 14 (SwitchMode MODE_IRQ cpu) = get_bank (Bank_idx BANK_IRQ) BANK_R14 cpu.
Proof.
  intros Hwf Hne.
  assert (Hb : ModeToBank (f_mode (cpsr (state cpu))) <> BANK_IRQ).
  { intros E. now apply ModeToBank_IRQ in E. }
  rewrite (SwitchMode_swap_from MODE_IRQ _ _ BANK_IRQ cpu eq_refl eq_refl eq_refl Hb).
  rewrite get_reg_swap_banks by first [wf_ok | congruence].
  rewrite decide_False, decide_True by lia. reflexivity.
Qed.

Lemma shape_set_spsr k w cpu : shape (set_spsr k w cpu) = shape cpu.
Proof. unfold shape; cbn. now rewrite length_insert. Qed.

Lemma well_formed_spsr cpu : well_formed cpu -> length (spsr (state cpu)) = 6%nat.
Proof. unfold well_formed, shape. intros E. now injection E. Qed.

Lemma u32_sub_4 (pc : Z) : 4 <= pc < 2 ^ 32 -> u32 (pc - 4) = pc - 4.
Proof. intros Hpc. unfold u32. apply Z.mod_small. lia. Qed.

(** C3: with the interrupt mask set, [SignalIrq] returns the core as it
    found it: every field of the state, the pipeline, the saved-status
    pointer, the memory interface and the log of its accesses. *)
Theorem SignalIrq_masked cpu :
  f_mask_irq (cpsr (state cpu)) = true ->
  SignalIrq cpu = cpu /\
  interface (SignalIrq cpu) = interface cpu /\
  bus_log (SignalIrq cpu) = bus_log cpu.
Proof.
  intros Hmask. unfold SignalIrq. rewrite Hmask. repeat split.
Qed.

(** The core just before the refill of [SignalIrq]. *)
Lemma SignalIrq_before_refill cpu :
  well_formed cpu ->
  let entered :=
    set_mask_irq true
      (set_thumb false
         (SwitchMode MODE_IRQ
            (set_spsr (Bank_idx BANK_IRQ) (cpsr (state cpu))
               (set_bank (Bank_idx BANK_IRQ) BANK_R14 (irq_return_address cpu) cpu)))) in
  well_formed entered /\
  get_bank (Bank_idx BANK_IRQ) BANK_R14 entered = irq_return_address cpu /\
  f_mode (cpsr (state entered)) = MODE_IRQ /\
  spsr (state entered) !! Bank_idx BANK_IRQ = Some (cpsr (state cpu)) /\
  interface entered = interface cpu /\
  bus_log entered = bus_log cpu /\
  (f_mode (cpsr (state cpu)) <> MODE_IRQ -> get_reg 14 entered = irq_return_address cpu).
Proof.
  intros Hwf.
  set (stored := set_spsr (Bank_idx BANK_IRQ) (cpsr (state cpu))
                   (set_bank (Bank_idx BANK_IRQ) BANK_R14 (irq_return_address cpu) cpu)).
  assert (Hwf1 : well_formed stored).
  { unfold stored, well_formed. now rewrite shape_set_spsr, shape_set_bank. }
  assert (Hslot : get_bank (Bank_idx BANK_IRQ) BANK_R14 stored = irq_return_address cpu).
  { unfold stored.
    change (get_bank ?k ?l (set_spsr ?b ?w ?c)) with (get_bank k l c).
    rewrite get_bank_set_bank by first [assumption | cbn; lia | unfold BANK_R14; lia].
    now rewrite decide_True. }
  cbv zeta.
  destruct (SwitchMode_frame MODE_IRQ stored) as (_ & _ & Hitf & Hlog & Hspsr & _).
  repeat split.
  - change (well_formed (SwitchMode MODE_IRQ stored)).
    now apply well_formed_SwitchMode.
  - change (get_bank (Bank_idx BANK_IRQ) BANK_R14 (SwitchMode MODE_IRQ stored)
            = irq_return_address cpu).
    now rewrite SwitchMode_IRQ_keeps_slot.
  - change (f_mode (cpsr (state (SwitchMode MODE_IRQ stored))) = MODE_IRQ).
    apply f_mode_SwitchMode. unfold MODE_IRQ. lia.
  - change (spsr (state (SwitchMode MODE_IRQ stored)) !! Bank_idx BANK_IRQ
            = Some (cpsr (state cpu))).
    rewrite Hspsr. unfold stored; cbn [spsr state set_spsr with_state].
    apply list_lookup_insert_eq.
    change (spsr (state (set_bank ?b ?j ?x ?c))) with (spsr (state c)).
    rewrite (well_formed_spsr _ Hwf). cbn; lia.
  - exact Hitf.
  - exact Hlog.
  - intros Hmode.
    change (get_reg 14 (SwitchMode MODE_IRQ stored) = irq_return_address cpu).
    rewrite SwitchMode_IRQ_loads_lr by assumption. exact Hslot.
Qed.

(** C2: with the interrupt mask clear, [SignalIrq] sets the mask, clears
    the Thumb flag, makes interrupt mode the active mode, leaves in the
    link-register slot of the interrupt bank the program counter of before
    the call (Thumb) or that program counter minus 4 in 32-bit arithmetic
    (ARM), and ends with the ARM refill at the vector 0x18: two word reads,
    non-sequential at 0x18 and sequential at 0x1C, fill the pipeline and
    r15 ends at 0x20.  The status register of before the call is in the
    saved-status slot of the interrupt bank. *)
Theorem SignalIrq_entry cpu :
  well_formed cpu ->
  f_mask_irq (cpsr (state cpu)) = false ->
  f_mask_irq (cpsr (state (SignalIrq cpu))) = true /\
  f_thumb (cpsr (state (SignalIrq cpu))) = false /\
  f_mode (cpsr (state (SignalIrq cpu))) = MODE_IRQ /\
  get_bank (Bank_idx BANK_IRQ) BANK_R14 (SignalIrq cpu)
  = (if f_thumb (cpsr (state cpu)) then get_reg 15 cpu else u32 (get_reg 15 cpu - 4)) /\
  (f_thumb (cpsr (state cpu)) = false -> 4 <= get_reg 15 cpu < 2 ^ 32 ->
   get_bank (Bank_idx BANK_IRQ) BANK_R14 (SignalIrq cpu) = get_reg 15 cpu - 4) /\
  spsr (state (SignalIrq cpu)) !! Bank_idx BANK_IRQ = Some (cpsr (state cpu)) /\
  (exists vectored, SignalIrq cpu = RefillA vectored /\ get_reg 15 vectored = 0x18) /\
  get_reg 15 (SignalIrq cpu) = 0x20 /\
  pipe0 (SignalIrq cpu) = fst (bus_ReadWord 0x18 ACCESS_NSEQ (interface cpu)) /\
  pipe1 (SignalIrq cpu)
  = fst (bus_ReadWord 0x1C ACCESS_SEQ (snd (bus_ReadWord 0x18 ACCESS_NSEQ (interface cpu)))) /\
  bus_log (SignalIrq cpu)
  = bus_log cpu ++ [mkBusAccess WORD 0x18 ACCESS_NSEQ; mkBusAccess WORD 0x1C ACCESS_SEQ].
Proof.
  intros Hwf Hmask.
  rewrite (SignalIrq_unmasked cpu Hmask).
  destruct (SignalIrq_before_refill cpu Hwf)
    as (Hwf2 & Hslot & Hmode & Hspsr & Hitf & Hlog & _).
  cbv zeta in Hwf2, Hslot, Hmode, Hspsr, Hitf, Hlog.
  set (entered := set_mask_irq true _) in *.
  assert (Hvec : get_reg 15 (set_reg 15 0x18 entered) = 0x18).
  { rewrite get_reg_set_reg by first [assumption | lia]. now rewrite decide_True. }
  assert (Hslot' : get_bank (Bank_idx BANK_IRQ) BANK_R14 (RefillA (set_reg 15 0x18 entered))
                   = irq_return_address cpu).
  { rewrite RefillA_eq. exact Hslot. }
  split; [rewrite RefillA_eq; reflexivity|].
  split; [rewrite RefillA_eq; reflexivity|].
  split; [rewrite RefillA_eq; exact Hmode|].
  split; [exact Hslot'|].
  split.
  { intros Ht Hpc. rewrite Hslot'. unfold irq_return_address. rewrite Ht.
    now apply u32_sub_4. }
  split; [rewrite RefillA_eq; exact Hspsr|].
  split; [exists (set_reg 15 0x18 entered); split; [reflexivity | exact Hvec]|].
  rewrite RefillA_eq, Hvec.
  change (interface (set_reg 15 0x18 entered)) with (interface entered).
  change (bus_log (set_reg 15 0x18 entered)) with (bus_log entered).
  rewrite Hitf, Hlog.
  repeat split.
  change (get_reg 15 (set_reg 15 (u32 (0x18 + 8)) (set_reg 15 0x18 entered)) = 0x20).
  rewrite get_reg_set_reg by first [now apply well_formed_set_reg | lia].
  now rewrite decide_True.
Qed.

(** C10: with the interrupt mask clear and the core not in interrupt mode,
    r14 after [SignalIrq] is the return address (the program counter of
    before the call in Thumb state, that program counter minus 4 in ARM
    state), the content of the interrupt bank's link-register slot. *)
Theorem SignalIrq_link_register cpu :
  well_formed cpu ->
  f_mask_irq (cpsr (state cpu)) = false ->
  f_mode (cpsr (state cpu)) <> MODE_IRQ ->
  get_reg 14 (SignalIrq cpu)
  = (if f_thumb (cpsr (state cpu)) then get_reg 15 cpu else u32 (get_reg 15 cpu - 4)) /\
  get_reg 14 (SignalIrq cpu) = get_bank (Bank_idx BANK_IRQ) BANK_R14 (SignalIrq cpu) /\
  (f_thumb (cpsr (state cpu)) = false -> 4 <= get_reg 15 cpu < 2 ^ 32 ->
   get_reg 14 (SignalIrq cpu) = get_reg 15 cpu - 4).
Proof.
  intros Hwf Hmask Hmode.
  rewrite (SignalIrq_unmasked cpu Hmask).
  destruct (SignalIrq_before_refill cpu Hwf)
    as (Hwf2 & Hslot & _ & _ & _ & _ & Hlr).
  cbv zeta in Hwf2, Hslot, Hlr. specialize (Hlr Hmode).
  set (entered := set_mask_irq true _) in *.
  assert (H14 : get_reg 14 (RefillA (set_reg 15 0x18 entered)) = irq_return_address cpu).
  { rewrite RefillA_eq.
    change (get_reg 14 (set_reg 15 (u32 (get_reg 15 (set_reg 15 0x18 entered) + 8))
                          (set_reg 15 0x18 entered)) = irq_return_address cpu).
    rewrite !get_reg_set_reg by first [now apply well_formed_set_reg | assumption | lia].
    rewrite !decide_False by lia. exact Hlr. }
  assert (Hslot' : get_bank (Bank_idx BANK_IRQ) BANK_R14 (RefillA (set_reg 15 0x18 entered))
                   = irq_return_address cpu).
  { rewrite RefillA_eq. exact Hslot. }
  rewrite H14, Hslot'. unfold irq_return_address.
  repeat split.
  intros Ht Hpc. rewrite Ht. now apply u32_sub_4.
Qed.

End SignalIrqLemmas.

(** ** Dispatch *)

Lemma land_word_aligned (pc : Z) :
  0 <= pc < 2 ^ 32 -> Z.land pc 3 = 0 -> Z.land pc 0xFFFFFFFC = pc.
Proof.
  intros Hpc Hlow.
  change 0xFFFFFFFC with (Z.ldiff (Z.ones 32) (Z.ones 2)).
  change 3 with (Z.ones 2) in Hlow.
  rewrite Z.land_ones in Hlow by lia.
  rewrite Z.ldiff_land, Z.land_assoc, <- Z.ldiff_land.
  rewrite Z.land_ones, (Z.mod_small pc) by lia.
  rewrite Z.ldiff_ones_r, Z.shiftr_div_pow2, Z.shiftl_mul_pow2 by lia.
  pose proof (Z.div_mod pc (2 ^ 2)) as Hdm. lia.
Qed.

Section RunLemmas.

Context {Bus : Type} `{Interface Bus}.
Variable arm_lut : Z -> Z -> ARM7 Bus -> ARM7 Bus.
Variable thumb_lut : Z -> Z -> ARM7 Bus -> ARM7 Bus.
Implicit Types (cpu : ARM7 Bus) (i j k l : nat) (a b : Bank) (x : Z).

(** The first half of an ARM step written out: r15 loses its two low bits,
    slot 1 moves to slot 0, one sequential word read fills slot 1. *)
Lemma prefetch_arm_eq cpu :
  prefetch_arm cpu
  = mkARM7 Bus
      (state (set_reg 15 (Z.land (get_reg 15 cpu) 0xFFFFFFFC) cpu))
      (pipe1 cpu)
      (fst (bus_ReadWord (get_reg 15 (set_reg 15 (Z.land (get_reg 15 cpu) 0xFFFFFFFC) cpu))
              ACCESS_SEQ (interface cpu)))
      (p_spsr cpu)
      (snd (bus_ReadWord (get_reg 15 (set_reg 15 (Z.land (get_reg 15 cpu) 0xFFFFFFFC) cpu))
              ACCESS_SEQ (interface cpu)))
      (bus_log cpu
       ++ [mkBusAccess WORD
             (get_reg 15 (set_reg 15 (Z.land (get_reg 15 cpu) 0xFFFFFFFC) cpu))
             ACCESS_SEQ]).
Proof.
  unfold prefetch_arm, ReadWord.
  change (u32 (Z.lnot 3)) with 0xFFFFFFFC.
  cbv zeta. rewrite interface_ReadWord_eq. reflexivity.
Qed.

(** An ARM step whose condition fails, written out. *)
Lemma Run_skip cpu :
  f_thumb (cpsr (state cpu)) = false ->
  CheckCondition (cpsr (state cpu)) (Condition_of_Z (Z.shiftr (pipe0 cpu) 28)) = false ->
  Run arm_lut thumb_lut cpu
  = set_reg 15 (u32 (get_reg 15 (prefetch_arm cpu) + 4)) (prefetch_arm cpu).
Proof.
  intros Ht Hc. unfold Run. rewrite Ht. cbv zeta.
  replace (cpsr (state (prefetch_arm cpu))) with (cpsr (state cpu))
    by now rewrite prefetch_arm_eq.
  now rewrite Hc.
Qed.

(** An ARM step whose condition fails, from any program counter: no opcode
    handler runs; r15 loses its two low bits and then gains 4 in 32-bit
    arithmetic; r0..r14, the status register, the banks and the
    saved-status slots keep their values. *)
Lemma Run_skip_effect cpu :
  well_formed cpu ->
  f_thumb (cpsr (state cpu)) = false ->
  CheckCondition (cpsr (state cpu)) (Condition_of_Z (Z.shiftr (pipe0 cpu) 28)) = false ->
  Run arm_lut thumb_lut cpu
  = set_reg 15 (u32 (get_reg 15 (prefetch_arm cpu) + 4)) (prefetch_arm cpu) /\
  (forall other_arm_lut other_thumb_lut,
     Run other_arm_lut other_thumb_lut cpu = Run arm_lut thumb_lut cpu) /\
  get_reg 15 (Run arm_lut thumb_lut cpu)
  = u32 (Z.land (get_reg 15 cpu) 0xFFFFFFFC + 4) /\
  (0 <= get_reg 15 cpu < 2 ^ 32 -> Z.land (get_reg 15 cpu) 3 = 0 ->
   get_reg 15 (Run arm_lut thumb_lut cpu) = u32 (get_reg 15 cpu + 4)) /\
  (forall i, (i < 15)%nat -> get_reg i (Run arm_lut thumb_lut cpu) = get_reg i cpu) /\
  cpsr (state (Run arm_lut thumb_lut cpu)) = cpsr (state cpu) /\
  bank (state (Run arm_lut thumb_lut cpu)) = bank (state cpu) /\
  spsr (state (Run arm_lut thumb_lut cpu)) = spsr (state cpu).
Proof.
  intros Hwf Ht Hc.
  split; [now apply Run_skip|].
  split.
  { intros other_arm_lut other_thumb_lut. unfold Run. rewrite Ht. cbv zeta.
    replace (cpsr (state (prefetch_arm cpu))) with (cpsr (state cpu))
      by now rewrite prefetch_arm_eq.
    now rewrite Hc. }
  rewrite (Run_skip cpu Ht Hc).
  set (aligned := set_reg 15 (Z.land (get_reg 15 cpu) 0xFFFFFFFC) cpu).
  assert (Hwf1 : well_formed aligned) by now apply well_formed_set_reg.
  assert (Hreg : forall i, get_reg i (prefetch_arm cpu)
                           = if decide (i = 15%nat) then Z.land (get_reg 15 cpu) 0xFFFFFFFC
                             else get_reg i cpu).
  { intros i. rewrite prefetch_arm_eq.
    change (get_reg i aligned
            = if decide (i = 15%nat) then Z.land (get_reg 15 cpu) 0xFFFFFFFC
              else get_reg i cpu).
    unfold aligned. now rewrite get_reg_set_reg by first [assumption | lia]. }
  assert (Hwf2 : well_formed (prefetch_arm cpu)).
  { rewrite prefetch_arm_eq. exact Hwf1. }
  assert (Hpc : get_reg 15 (set_reg 15 (u32 (get_reg 15 (prefetch_arm cpu) + 4))
                              (prefetch_arm cpu))
                = u32 (Z.land (get_reg 15 cpu) 0xFFFFFFFC + 4)).
  { rewrite get_reg_set_reg by first [assumption | lia].
    rewrite decide_True by reflexivity.
    now rewrite Hreg, decide_True. }
  split; [exact Hpc|].
  split; [intros Hrange Hlow; rewrite Hpc; now rewrite land_word_aligned|].
  split.
  { intros i Hi. rewrite get_reg_set_reg by first [assumption | lia].
    rewrite decide_False by lia. rewrite Hreg. now rewrite decide_False by lia. }
  rewrite prefetch_arm_eq. repeat split.
Qed.

(** C6: in an ARM step whose condition (bits 31..28 of the instruction in
    slot 0) evaluates false, the program counter advances by exactly 4 and
    no opcode handler is invoked: the step is the same for any opcode
    tables; r0..r14 and every field of the status register, the flags
    among them, are unchanged, and so are the banks and the saved-status
    slots.  The program counter of a core in ARM state is word-aligned, as
    the invariant of the processor state has it, and the advance is stated
    below the top of the 32-bit address space. *)
Theorem Run_condition_false cpu :
  well_formed cpu ->
  f_thumb (cpsr (state cpu)) = false ->
  CheckCondition (cpsr (state cpu)) (Condition_of_Z (Z.shiftr (pipe0 cpu) 28)) = false ->
  0 <= get_reg 15 cpu -> get_reg 15 cpu + 4 < 2 ^ 32 ->
  Z.land (get_reg 15 cpu) 3 = 0 ->
  get_reg 15 (Run arm_lut thumb_lut cpu) = get_reg 15 cpu + 4 /\
  Run arm_lut thumb_lut cpu
  = set_reg 15 (u32 (get_reg 15 (prefetch_arm cpu) + 4)) (prefetch_arm cpu) /\
  (forall other_arm_lut other_thumb_lut,
     Run other_arm_lut other_thumb_lut cpu = Run arm_lut thumb_lut cpu) /\
  (forall i, (i < 15)%nat -> get_reg i (Run arm_lut thumb_lut cpu) = get_reg i cpu) /\
  cpsr (state (Run arm_lut thumb_lut cpu)) = cpsr (state cpu) /\
  bank (state (Run arm_lut thumb_lut cpu)) = bank (state cpu) /\
  spsr (state (Run arm_lut thumb_lut cpu)) = spsr (state cpu).
Proof.
  intros Hwf Ht Hc Hlo Hhi Hal.
  destruct (Run_skip_effect cpu Hwf Ht Hc)
    as (Hrun & Htab & _ & Hpc & Hregs & Hcpsr & Hbank & Hspsr).
  split.
  { rewrite Hpc by first [lia | assumption].
    unfold u32. apply Z.mod_small. lia. }
  repeat split; assumption.
Qed.

(** C7, amended: a Thumb step invokes, whatever the flags, the entry of the
    Thumb table whose index is the instruction in slot 0 shifted right by
    6; for a halfword that is the 10-bit number made of bits 15..6, and
    bits 15..10 are only its upper six bits. *)
Theorem Run_thumb_dispatch cpu :
  f_thumb (cpsr (state cpu)) = true ->
  Run arm_lut thumb_lut cpu
  = thumb_lut (Z.shiftr (pipe0 cpu) 6) (pipe0 cpu) (prefetch_thumb cpu) /\
  (0 <= pipe0 cpu < 2 ^ 16 ->
   0 <= Z.shiftr (pipe0 cpu) 6 < 2 ^ 10 /\
   (forall n, 0 <= n -> Z.testbit (Z.shiftr (pipe0 cpu) 6) n = Z.testbit (pipe0 cpu) (n + 6)) /\
   thumb_index_bits_15_10 (pipe0 cpu) = Z.shiftr (Z.shiftr (pipe0 cpu) 6) 4).
Proof.
  intros Ht. split.
  - unfold Run. now rewrite Ht.
  - intros Hw. split; [|split].
    + rewrite Z.shiftr_div_pow2 by lia. split.
      * apply Z.div_pos; lia.
      * apply Z.div_lt_upper_bound; lia.
    + intros n Hn. now apply Z.shiftr_spec.
    + unfold thumb_index_bits_15_10.
      rewrite Z.shiftr_shiftr by lia. change (6 + 4) with 10.
      change 0x3F with (Z.ones 6). rewrite Z.land_ones by lia.
      apply Z.mod_small. rewrite Z.shiftr_div_pow2 by lia. split.
      * apply Z.div_pos; lia.
      * apply Z.div_lt_upper_bound; lia.
Qed.

End RunLemmas.

(** ** The definitions at work on concrete cores *)

Example Reset_sample :
  reg (state (Reset cpu_usr_thumb)) = replicate 16 0 /\
  f_mode (cpsr (state (Reset cpu_usr_thumb))) = MODE_SYS /\
  pipe0 (Reset cpu_usr_thumb) = 0xF0000000 /\
  pipe1 (Reset cpu_usr_thumb) = 0xF0000000.
Proof. repeat split. Qed.

(** Signalled while already in interrupt mode with the mask clear, the
    return address reaches the bank slot and r14 keeps its value. *)
Example SignalIrq_nested_sample :
  get_bank (Bank_idx BANK_IRQ) BANK_R14
    (SignalIrq (sample_cpu MODE_IRQ false false 0x08000008 0xE1A00000)) = 0x08000004 /\
  get_reg 14 (SignalIrq (sample_cpu MODE_IRQ false false 0x08000008 0xE1A00000)) = 114.
Proof. repeat split. Qed.

Example SignalIrq_sample :
  get_reg 14 (SignalIrq cpu_usr_arm) = 0x08000004 /\
  get_reg 14 (SignalIrq cpu_usr_thumb) = 0x08000004 /\
  get_reg 13 (SignalIrq cpu_usr_arm) = 240.
Proof. repeat split. Qed.

Lemma SignalIrq_entry_witness :
  well_formed cpu_usr_thumb /\
  f_mask_irq (cpsr (state cpu_usr_thumb)) = false /\
  f_mask_irq (cpsr (state (SignalIrq cpu_usr_thumb))) = true /\
  f_thumb (cpsr (state (SignalIrq cpu_usr_thumb))) = false /\
  f_mode (cpsr (state (SignalIrq cpu_usr_thumb))) = MODE_IRQ /\
  get_bank (Bank_idx BANK_IRQ) BANK_R14 (SignalIrq cpu_usr_thumb) = 0x08000004.
Proof.
  split; [reflexivity|]. split; [reflexivity|].
  destruct (SignalIrq_entry cpu_usr_thumb eq_refl eq_refl)
    as (Hi & Ht & Hm & Hlr & _).
  repeat split; assumption.
Defined.

Lemma SignalIrq_masked_witness :
  f_mask_irq (cpsr (state cpu_svc_masked)) = true /\
  SignalIrq cpu_svc_masked = cpu_svc_masked /\
  interface (SignalIrq cpu_svc_masked) = interface cpu_svc_masked /\
  bus_log (SignalIrq cpu_svc_masked) = bus_log cpu_svc_masked.
Proof.
  split; [reflexivity|]. apply (SignalIrq_masked cpu_svc_masked). reflexivity.
Defined.

Lemma SwitchMode_round_trip_witness :
  well_formed cpu_usr_arm /\
  f_mode (cpsr (state cpu_usr_arm)) = MODE_USR /\
  MODE_USR <> MODE_FIQ /\
  0 <= MODE_FIQ < 32 /\
  get_reg 13 (SwitchMode MODE_USR (SwitchMode MODE_FIQ cpu_usr_arm)) = get_reg 13 cpu_usr_arm /\
  get_reg 14 (SwitchMode MODE_USR (SwitchMode MODE_FIQ cpu_usr_arm)) = get_reg 14 cpu_usr_arm /\
  (forall i, (8 <= i <= 12)%nat ->
     get_reg i (SwitchMode MODE_USR (SwitchMode MODE_FIQ cpu_usr_arm)) = get_reg i cpu_usr_arm).
Proof.
  assert (Hne : MODE_USR <> MODE_FIQ) by (unfold MODE_USR, MODE_FIQ; lia).
  assert (Hr : 0 <= MODE_FIQ < 32) by (unfold MODE_FIQ; lia).
  split; [reflexivity|]. split; [reflexivity|].
  split; [exact Hne|]. split; [exact Hr|].
  exact (SwitchMode_round_trip MODE_USR MODE_FIQ cpu_usr_arm eq_refl eq_refl Hne Hr).
Defined.

Lemma SwitchMode_FIQ_isolation_witness :
  well_formed cpu_usr_arm /\
  f_mode (cpsr (state cpu_usr_arm)) <> MODE_FIQ /\
  MODE_SVC <> MODE_FIQ /\
  0 <= MODE_SVC < 32 /\
  (forall i, (8 <= i <= 12)%nat ->
     get_reg i (SwitchMode MODE_SVC
                  (write_regs [(8%nat, 1008); (12%nat, 1012)] (SwitchMode MODE_FIQ cpu_usr_arm)))
     = get_reg i cpu_usr_arm).
Proof.
  assert (Hm : f_mode (cpsr (state cpu_usr_arm)) <> MODE_FIQ)
    by (cbn; unfold MODE_USR, MODE_FIQ; lia).
  assert (Hne : MODE_SVC <> MODE_FIQ) by (unfold MODE_SVC, MODE_FIQ; lia).
  assert (Hr : 0 <= MODE_SVC < 32) by (unfold MODE_SVC; lia).
  split; [reflexivity|]. split; [exact Hm|]. split; [exact Hne|]. split; [exact Hr|].
  exact (proj1 (proj2 (SwitchMode_FIQ_isolation MODE_SVC [(8%nat, 1008); (12%nat, 1012)]
                         cpu_usr_arm eq_refl Hm Hne Hr))).
Defined.

Lemma Run_condition_false_witness :
  well_formed cpu_usr_arm /\
  f_thumb (cpsr (state cpu_usr_arm)) = false /\
  CheckCondition (cpsr (state cpu_usr_arm))
    (Condition_of_Z (Z.shiftr (pipe0 cpu_usr_arm) 28)) = false /\
  0 <= get_reg 15 cpu_usr_arm /\
  get_reg 15 cpu_usr_arm + 4 < 2 ^ 32 /\
  Z.land (get_reg 15 cpu_usr_arm) 3 = 0 /\
  get_reg 15 (Run probe_lut probe_lut cpu_usr_arm) = get_reg 15 cpu_usr_arm + 4 /\
  (forall i, (i < 15)%nat ->
     get_reg i (Run probe_lut probe_lut cpu_usr_arm) = get_reg i cpu_usr_arm) /\
  cpsr (state (Run probe_lut probe_lut cpu_usr_arm)) = cpsr (state cpu_usr_arm).
Proof.
  assert (Hlo : 0 <= get_reg 15 cpu_usr_arm) by (change (0 <= 0x08000008); lia).
  assert (Hhi : get_reg 15 cpu_usr_arm + 4 < 2 ^ 32)
    by (change (0x08000008 + 4 < 2 ^ 32); lia).
  split; [reflexivity|]. split; [reflexivity|]. split; [reflexivity|].
  split; [exact Hlo|]. split; [exact Hhi|]. split; [reflexivity|].
  destruct (Run_condition_false probe_lut probe_lut cpu_usr_arm
              eq_refl eq_refl eq_refl Hlo Hhi eq_refl)
    as (Hpc & _ & _ & Hregs & Hcpsr & _).
  repeat split; assumption.
Defined.

Lemma Run_thumb_dispatch_witness :
  f_thumb (cpsr (state cpu_usr_thumb)) = true /\
  Run probe_lut probe_lut cpu_usr_thumb
  = probe_lut (Z.shiftr (pipe0 cpu_usr_thumb) 6) (pipe0 cpu_usr_thumb)
      (prefetch_thumb cpu_usr_thumb).
Proof.
  split; [reflexivity|].
  exact (proj1 (Run_thumb_dispatch probe_lut probe_lut cpu_usr_thumb eq_refl)).
Defined.

Lemma SwitchMode_swaps_sp_lr_witness :
  well_formed cpu_usr_arm /\
  ModeToBank MODE_IRQ <> ModeToBank (f_mode (cpsr (state cpu_usr_arm))) /\
  sp_lr_swapped MODE_IRQ cpu_usr_arm (SwitchMode MODE_IRQ cpu_usr_arm) /\
  f_mode (cpsr (state (SwitchMode MODE_IRQ cpu_usr_arm))) = Z.land MODE_IRQ 31.
Proof.
  assert (Hb : ModeToBank MODE_IRQ <> ModeToBank (f_mode (cpsr (state cpu_usr_arm))))
    by (vm_compute; discriminate).
  split; [reflexivity|]. split; [exact Hb|].
  exact (SwitchMode_swaps_sp_lr MODE_IRQ cpu_usr_arm eq_refl Hb).
Defined.

Lemma SwitchMode_same_bank_only_mode_witness :
  MODE_SYS <> f_mode (cpsr (state cpu_usr_arm)) /\
  ModeToBank MODE_SYS = ModeToBank (f_mode (cpsr (state cpu_usr_arm))) /\
  reg (state (SwitchMode MODE_SYS cpu_usr_arm)) = reg (state cpu_usr_arm) /\
  bank (state (SwitchMode MODE_SYS cpu_usr_arm)) = bank (state cpu_usr_arm).
Proof.
  assert (Hne : MODE_SYS <> f_mode (cpsr (state cpu_usr_arm)))
    by (cbn; unfold MODE_SYS, MODE_USR; lia).
  split; [exact Hne|]. split; [reflexivity|].
  destruct (SwitchMode_same_bank_only_mode MODE_SYS cpu_usr_arm Hne eq_refl)
    as (Hreg & Hbank & _).
  split; assumption.
Defined.

Lemma SignalIrq_link_register_witness :
  well_formed cpu_usr_arm /\
  f_mask_irq (cpsr (state cpu_usr_arm)) = false /\
  f_mode (cpsr (state cpu_usr_arm)) <> MODE_IRQ /\
  get_reg 14 (SignalIrq cpu_usr_arm)
  = (if f_thumb (cpsr (state cpu_usr_arm)) then get_reg 15 cpu_usr_arm
     else u32 (get_reg 15 cpu_usr_arm - 4)).
Proof.
  assert (Hm : f_mode (cpsr (state cpu_usr_arm)) <> MODE_IRQ)
    by (cbn; unfold MODE_USR, MODE_IRQ; lia).
  split; [reflexivity|]. split; [reflexivity|]. split; [exact Hm|].
  exact (proj1 (SignalIrq_link_register cpu_usr_arm eq_refl eq_refl Hm)).
Defined.

(** Outside the invariant of ARM state: were r15 not word-aligned, the
    alignment at the head of the step would show in the advance.  From
    0x0800000A a skipped step leaves 0x0800000C. *)
Example Run_skip_misaligned_pc :
  well_formed cpu_usr_misaligned /\
  f_thumb (cpsr (state cpu_usr_misaligned)) = false /\
  CheckCondition (cpsr (state cpu_usr_misaligned))
    (Condition_of_Z (Z.shiftr (pipe0 cpu_usr_misaligned) 28)) = false /\
  get_reg 15 cpu_usr_misaligned = 0x0800000A /\
  get_reg 15 (Run probe_lut probe_lut cpu_usr_misaligned) = 0x0800000C /\
  get_reg 15 (Run probe_lut probe_lut cpu_usr_misaligned)
  <> get_reg 15 cpu_usr_misaligned + 4.
Proof.
  repeat split. vm_compute. discriminate.
Qed.

(** ** Where the stated claims fail *)

(** C7 as stated: for the halfword 0x2005 bits 15..10 give the index 8,
    and the step invokes entry 0x80. *)
Lemma Run_thumb_index_not_bits_15_10 :
  f_thumb (cpsr (state cpu_usr_thumb)) = true /\
  pipe0 cpu_usr_thumb = 0x2005 /\
  thumb_index_bits_15_10 (pipe0 cpu_usr_thumb) = 8 /\
  get_reg 0 (Run probe_lut probe_lut cpu_usr_thumb) = 0x80 /\
  Run probe_lut probe_lut cpu_usr_thumb
  <> probe_lut (thumb_index_bits_15_10 (pipe0 cpu_usr_thumb)) (pipe0 cpu_usr_thumb)
       (prefetch_thumb cpu_usr_thumb).
Proof.
  repeat split.
  intros E. apply (f_equal (get_reg 0)) in E. vm_compute in E. discriminate E.
Qed.

(** C8 as stated: from user mode, [SwitchMode(MODE_SYS)] changes the mode
    and neither saves r13 and r14 nor sets [p_spsr]. *)
Lemma SwitchMode_same_bank_no_swap :
  MODE_SYS <> f_mode (cpsr (state cpu_usr_arm)) /\
  well_formed cpu_usr_arm /\
  get_reg 13 cpu_usr_arm = 113 /\
  get_bank (Bank_idx (ModeToBank MODE_USR)) BANK_R13 (SwitchMode MODE_SYS cpu_usr_arm) = 200 /\
  p_spsr (SwitchMode MODE_SYS cpu_usr_arm) = None /\
  ~ sp_lr_swapped MODE_SYS cpu_usr_arm (SwitchMode MODE_SYS cpu_usr_arm).
Proof.
  split; [cbn; unfold MODE_SYS, MODE_USR; lia|].
  repeat split.
  intros (H13 & _). vm_compute in H13. discriminate H13.
Qed.

(** * Further properties of the code *)

(** ** [CheckCondition] and [SetNZ] *)

(** X1: the conditions come in complementary pairs, and the compound ones
    are built from the simple ones: HI is CS and NE, LS is CC or EQ, GT is
    GE and NE, LE is LT or EQ. *)
Theorem CheckCondition_pairs (cpsr : StatusRegister) :
  CheckCondition cpsr COND_NE = negb (CheckCondition cpsr COND_EQ) /\
  CheckCondition cpsr COND_CC = negb (CheckCondition cpsr COND_CS) /\
  CheckCondition cpsr COND_PL = negb (CheckCondition cpsr COND_MI) /\
  CheckCondition cpsr COND_VC = negb (CheckCondition cpsr COND_VS) /\
  CheckCondition cpsr COND_LS = negb (CheckCondition cpsr COND_HI) /\
  CheckCondition cpsr COND_LT = negb (CheckCondition cpsr COND_GE) /\
  CheckCondition cpsr COND_LE = negb (CheckCondition cpsr COND_GT) /\
  CheckCondition cpsr COND_NV = negb (CheckCondition cpsr COND_AL) /\
  CheckCondition cpsr COND_HI
  = CheckCondition cpsr COND_CS && CheckCondition cpsr COND_NE /\
  CheckCondition cpsr COND_LS
  = CheckCondition cpsr COND_CC || CheckCondition cpsr COND_EQ /\
  CheckCondition cpsr COND_GT
  = CheckCondition cpsr COND_GE && CheckCondition cpsr COND_NE /\
  CheckCondition cpsr COND_LE
  = CheckCondition cpsr COND_LT || CheckCondition cpsr COND_EQ.
Proof.
  destruct cpsr as [m t i v c z n rest]; cbn.
  destruct v, c, z, n; cbn; repeat split.
Qed.

Section SetNZLemmas.

Context {Bus : Type}.
Implicit Types (cpu : ARM7 Bus).

Lemma testbit_31_u32 (value : Z) :
  0 <= value < 2 ^ 32 -> Z.testbit value 31 = (2 ^ 31 <=? value).
Proof.
  intros Hv.
  destruct (Z.leb_spec (2 ^ 31) value) as [Hge|Hlt].
  - apply Z.testbit_true; [lia|].
    assert (Hq : value / 2 ^ 31 = 1).
    { symmetry. apply Z.div_unique with (r := value - 2 ^ 31); lia. }
    now rewrite Hq.
  - apply Z.testbit_false; [lia|].
    rewrite Z.div_small by lia. reflexivity.
Qed.

(** X2: after [SetNZ(value)] on a 32-bit value, EQ holds exactly when the
    value is zero and MI exactly when its bit 31 is set; N and Z are never
    both set; carry, overflow, the mode, the width and the mask keep their
    values, and so does everything outside [cpsr]. *)
Theorem SetNZ_conditions (value : Z) cpu :
  0 <= value < 2 ^ 32 ->
  CheckCondition (cpsr (state (SetNZ value cpu))) COND_EQ = (value =? 0) /\
  CheckCondition (cpsr (state (SetNZ value cpu))) COND_NE = negb (value =? 0) /\
  CheckCondition (cpsr (state (SetNZ value cpu))) COND_MI = (2 ^ 31 <=? value) /\
  CheckCondition (cpsr (state (SetNZ value cpu))) COND_PL = (value <? 2 ^ 31) /\
  f_n (cpsr (state (SetNZ value cpu))) && f_z (cpsr (state (SetNZ value cpu))) = false /\
  f_c (cpsr (state (SetNZ value cpu))) = f_c (cpsr (state cpu)) /\
  f_v (cpsr (state (SetNZ value cpu))) = f_v (cpsr (state cpu)) /\
  f_mode (cpsr (state (SetNZ value cpu))) = f_mode (cpsr (state cpu)) /\
  f_thumb (cpsr (state (SetNZ value cpu))) = f_thumb (cpsr (state cpu)) /\
  f_mask_irq (cpsr (state (SetNZ value cpu))) = f_mask_irq (cpsr (state cpu)) /\
  f_rest (cpsr (state (SetNZ value cpu))) = f_rest (cpsr (state cpu)) /\
  reg (state (SetNZ value cpu)) = reg (state cpu) /\
  bank (state (SetNZ value cpu)) = bank (state cpu) /\
  spsr (state (SetNZ value cpu)) = spsr (state cpu) /\
  bus_log (SetNZ value cpu) = bus_log cpu.
Proof.
  intros Hv. cbn [SetNZ with_cpsr with_state state cpsr CheckCondition
                  f_z f_n f_c f_v f_mode f_thumb f_mask_irq f_rest reg bank spsr bus_log].
  rewrite (testbit_31_u32 value Hv).
  repeat split.
  - now rewrite Z.ltb_antisym.
  - destruct (Z.leb_spec (2 ^ 31) value), (Z.eqb_spec value 0); cbn; try reflexivity; lia.
Qed.

End SetNZLemmas.

(** ** [ModeToBank] *)

(** X3: [ModeToBank] gives each of the five exception modes a bank of its
    own, and [BANK_NONE] to user mode, system mode and every unrecognised
    value. *)
Theorem ModeToBank_classification (m : Z) :
  (ModeToBank m = BANK_FIQ <-> m = MODE_FIQ) /\
  (ModeToBank m = BANK_IRQ <-> m = MODE_IRQ) /\
  (ModeToBank m = BANK_SVC <-> m = MODE_SVC) /\
  (ModeToBank m = BANK_ABT <-> m = MODE_ABT) /\
  (ModeToBank m = BANK_UND <-> m = MODE_UND) /\
  (ModeToBank m = BANK_NONE <->
   m <> MODE_FIQ /\ m <> MODE_IRQ /\ m <> MODE_SVC /\ m <> MODE_ABT /\ m <> MODE_UND).
Proof.
  unfold ModeToBank, MODE_USR, MODE_SYS, MODE_FIQ, MODE_IRQ, MODE_SVC, MODE_ABT, MODE_UND.
  repeat match goal with
         | |- context [?a =? ?b] => destruct (Z.eqb_spec a b)
         end; cbn; repeat split; intros; try discriminate; try reflexivity; try lia;
    repeat match goal with
           | E : _ /\ _ |- _ => destruct E
           end; lia.
Qed.

(** ** [SwitchMode] for arbitrary pairs of modes *)

Section SwitchModeGeneral.

Context {Bus : Type}.
Implicit Types (cpu : ARM7 Bus) (i j k l : nat) (a b : Bank) (x : Z).

(** The registers after any call of [SwitchMode], by the banks of the old
    and of the new mode. *)
Lemma get_reg_SwitchMode i (m : Z) cpu :
  well_formed cpu ->
  get_reg i (SwitchMode m cpu)
  = if decide (ModeToBank (f_mode (cpsr (state cpu))) = ModeToBank m) then get_reg i cpu
    else if decide (i = 13%nat) then get_bank (Bank_idx (ModeToBank m)) BANK_R13 cpu
    else if decide (i = 14%nat) then get_bank (Bank_idx (ModeToBank m)) BANK_R14 cpu
    else if decide (swaps_gprs (ModeToBank (f_mode (cpsr (state cpu)))) (ModeToBank m) = true
                    /\ (8 <= i <= 12)%nat)
         then get_bank (Bank_idx (gpr_bank (ModeToBank m))) (i - 6) cpu
    else get_reg i cpu.
Proof.
  intros Hwf.
  destruct (Z.eq_dec m (f_mode (cpsr (state cpu)))) as [E|Hne].
  - rewrite SwitchMode_same by assumption. subst m. now rewrite decide_True.
  - case_decide as Hb.
    + now rewrite SwitchMode_same_bank by congruence.
    + rewrite SwitchMode_swap by congruence.
      rewrite get_reg_swap_banks by first [wf_ok | congruence].
      reflexivity.
Qed.

(** The bank rows after any call of [SwitchMode]. *)
Lemma get_bank_SwitchMode k l (m : Z) cpu :
  well_formed cpu ->
  get_bank k l (SwitchMode m cpu)
  = if decide (ModeToBank (f_mode (cpsr (state cpu))) = ModeToBank m) then get_bank k l cpu
    else if decide (k = Bank_idx (ModeToBank (f_mode (cpsr (state cpu)))) /\ l = BANK_R13)
         then get_reg 13 cpu
    else if decide (k = Bank_idx (ModeToBank (f_mode (cpsr (state cpu)))) /\ l = BANK_R14)
         then get_reg 14 cpu
    else if decide (swaps_gprs (ModeToBank (f_mode (cpsr (state cpu)))) (ModeToBank m) = true
                    /\ k = Bank_idx (gpr_bank (ModeToBank (f_mode (cpsr (state cpu)))))
                    /\ (2 <= l <= 6)%nat)
         then get_reg (l + 6) cpu
    else get_bank k l cpu.
Proof.
  intros Hwf.
  destruct (Z.eq_dec m (f_mode (cpsr (state cpu)))) as [E|Hne].
  - rewrite SwitchMode_same by assumption. subst m. now rewrite decide_True.
  - case_decide as Hb.
    + now rewrite SwitchMode_same_bank by congruence.
    + rewrite SwitchMode_swap by congruence.
      rewrite get_bank_swap_banks by first [wf_ok | congruence].
      reflexivity.
Qed.

(** X4: a second call with the same mode changes nothing.  The mode must
    fit the 5-bit field: the field keeps the low five bits only. *)
Theorem SwitchMode_idempotent (m : Z) cpu :
  0 <= m < 32 ->
  SwitchMode m (SwitchMode m cpu) = SwitchMode m cpu.
Proof.
  intros Hm. apply SwitchMode_same. symmetry. now apply f_mode_SwitchMode.
Qed.

(** X5: whatever the two modes, [SwitchMode] leaves r0..r7 and r15, the
    flags, the width and the mask, every saved-status slot, the pipeline
    and the memory interface as they are, and makes no bus access. *)
Theorem SwitchMode_never_touches (m : Z) cpu :
  well_formed cpu ->
  (forall i, (i < 8)%nat \/ i = 15%nat -> get_reg i (SwitchMode m cpu) = get_reg i cpu) /\
  f_n (cpsr (state (SwitchMode m cpu))) = f_n (cpsr (state cpu)) /\
  f_z (cpsr (state (SwitchMode m cpu))) = f_z (cpsr (state cpu)) /\
  f_c (cpsr (state (SwitchMode m cpu))) = f_c (cpsr (state cpu)) /\
  f_v (cpsr (state (SwitchMode m cpu))) = f_v (cpsr (state cpu)) /\
  f_thumb (cpsr (state (SwitchMode m cpu))) = f_thumb (cpsr (state cpu)) /\
  f_mask_irq (cpsr (state (SwitchMode m cpu))) = f_mask_irq (cpsr (state cpu)) /\
  spsr (state (SwitchMode m cpu)) = spsr (state cpu) /\
  pipe0 (SwitchMode m cpu) = pipe0 cpu /\
  pipe1 (SwitchMode m cpu) = pipe1 cpu /\
  interface (SwitchMode m cpu) = interface cpu /\
  bus_log (SwitchMode m cpu) = bus_log cpu.
Proof.
  intros Hwf.
  destruct (SwitchMode_frame m cpu) as (Hp0 & Hp1 & Hitf & Hlog & Hspsr & _).
  destruct (cpsr_SwitchMode_flags m cpu) as (Ht & Hi & Hn & Hz & Hc & Hv).
  split; [|repeat split; assumption].
  intros i Hi'. rewrite get_reg_SwitchMode by assumption.
  close_cases.
Qed.

(** X6: of the bank storage, [SwitchMode] writes entries 0 and 1 of the
    row of the old mode's bank and, when r8..r12 are swapped, entries 2..6
    of the row that keeps them for the old mode; every other entry keeps
    its value.  The row of the new mode's bank is read and never written. *)
Theorem SwitchMode_bank_frame (m : Z) cpu :
  well_formed cpu ->
  (forall l, get_bank (Bank_idx (ModeToBank m)) l (SwitchMode m cpu)
             = get_bank (Bank_idx (ModeToBank m)) l cpu) /\
  (forall k l,
     ~ (k = Bank_idx (ModeToBank (f_mode (cpsr (state cpu)))) /\ (l < 2)%nat) ->
     ~ (swaps_gprs (ModeToBank (f_mode (cpsr (state cpu)))) (ModeToBank m) = true /\
        k = Bank_idx (gpr_bank (ModeToBank (f_mode (cpsr (state cpu))))) /\
        (2 <= l <= 6)%nat) ->
     get_bank k l (SwitchMode m cpu) = get_bank k l cpu).
Proof.
  intros Hwf. split.
  - intros l. rewrite get_bank_SwitchMode by assumption.
    generalize (ModeToBank (f_mode (cpsr (state cpu)))) as a.
    generalize (ModeToBank m) as b. intros b a.
    destruct a, b; cbn [swaps_gprs gpr_bank Bank_eqb orb Bank_idx];
      unfold BANK_R13, BANK_R14; close_cases.
  - intros k l Hrow Hgpr. rewrite get_bank_SwitchMode by assumption.
    unfold BANK_R13, BANK_R14. close_cases.
Qed.

(** X7: the registers a mode sees do not depend on the modes visited on
    the way: switching to [B] and then to [C] shows the same r0..r15 as
    switching to [C] at once. *)
Theorem SwitchMode_path_independent (B C : Z) cpu i :
  well_formed cpu -> 0 <= B < 32 ->
  get_reg i (SwitchMode C (SwitchMode B cpu)) = get_reg i (SwitchMode C cpu).
Proof.
  intros Hwf HB.
  assert (Hwf1 : well_formed (SwitchMode B cpu)) by now apply well_formed_SwitchMode.
  rewrite (get_reg_SwitchMode i C (SwitchMode B cpu)) by assumption.
  rewrite (f_mode_SwitchMode B cpu HB).
  rewrite !(get_bank_SwitchMode _ _ B cpu), !(get_reg_SwitchMode _ B cpu) by assumption.
  rewrite (get_reg_SwitchMode i C cpu) by assumption.
  generalize (ModeToBank (f_mode (cpsr (state cpu)))) as a.
  generalize (ModeToBank B) as b. generalize (ModeToBank C) as c.
  intros c b a.
  destruct a, b, c;
    cbn [swaps_gprs gpr_bank Bank_eqb orb Bank_idx];
    unfold BANK_R13, BANK_R14; close_cases; f_equal; lia.
Qed.

End SwitchModeGeneral.

(** ** [Reset] *)

Ltac list_of_length l H :=
  repeat (destruct l as [|? l]; cbn in H; try discriminate H).

(* Replace a core of the declared array sizes by its fields, entry by entry. *)
Ltac explode_core cpu Hwf :=
  let r := fresh "r" in let bk := fresh "bk" in let sp := fresh "sp" in
  let Hr := fresh "Hr" in let Hbk := fresh "Hbk" in let Hsp := fresh "Hsp" in
  let r0 := fresh "row" in let r1 := fresh "row" in let r2 := fresh "row" in
  let r3 := fresh "row" in let r4 := fresh "row" in let r5 := fresh "row" in
  let r6 := fresh "row" in
  let H0 := fresh "Hrow" in let H1 := fresh "Hrow" in let H2 := fresh "Hrow" in
  let H3 := fresh "Hrow" in let H4 := fresh "Hrow" in let H5 := fresh "Hrow" in
  destruct cpu as [[r bk ? sp] ? ? ? ? ?];
  unfold well_formed, shape in Hwf; cbn in Hwf;
  injection Hwf as Hr Hbk Hsp;
  list_of_length r Hr;
  destruct bk as [|r0 [|r1 [|r2 [|r3 [|r4 [|r5 [|r6 bk]]]]]]]; try discriminate Hbk;
  injection Hbk as H0 H1 H2 H3 H4 H5;
  list_of_length r0 H0; list_of_length r1 H1; list_of_length r2 H2;
  list_of_length r3 H3; list_of_length r4 H4; list_of_length r5 H5;
  list_of_length sp Hsp.

Section ResetLemmas.

Context {Bus : Type} `{Interface Bus}.
Variable arm_lut : Z -> Z -> ARM7 Bus -> ARM7 Bus.
Variable thumb_lut : Z -> Z -> ARM7 Bus -> ARM7 Bus.
Implicit Types (cpu : ARM7 Bus).

(** X8: [Reset] leaves one state whatever it starts from: sixteen zero
    registers (r15 included: no refill is made), zero bank rows and
    saved-status slots, a zero status register whose mode field is then set
    to system mode, and 0xF0000000 in both pipeline slots.  It makes no bus
    access, and it does not set [p_spsr]: the mode 0 of the cleared status
    register and system mode both have [BANK_NONE]. *)
Theorem Reset_state cpu :
  well_formed cpu ->
  Reset cpu
  = mkARM7 Bus
      (mkState (replicate 16 0) (replicate BANK_COUNT (replicate 7 0))
         (mkStatusRegister MODE_SYS false false false false false false 0)
         (replicate BANK_COUNT StatusRegister_zero))
      0xF0000000 0xF0000000 (p_spsr cpu) (interface cpu) (bus_log cpu).
Proof.
  intros Hwf. explode_core cpu Hwf.
  vm_compute. reflexivity.
Qed.

End ResetLemmas.

(** ** Dispatch: what a handler receives *)

Lemma land_half_aligned (pc : Z) :
  0 <= pc < 2 ^ 32 -> Z.land pc 1 = 0 -> Z.land pc 0xFFFFFFFE = pc.
Proof.
  intros Hpc Hlow.
  change 0xFFFFFFFE with (Z.ldiff (Z.ones 32) (Z.ones 1)).
  change 1 with (Z.ones 1) in Hlow.
  rewrite Z.land_ones in Hlow by lia.
  rewrite Z.ldiff_land, Z.land_assoc, <- Z.ldiff_land.
  rewrite Z.land_ones, (Z.mod_small pc) by lia.
  rewrite Z.ldiff_ones_r, Z.shiftr_div_pow2, Z.shiftl_mul_pow2 by lia.
  pose proof (Z.div_mod pc (2 ^ 1)) as Hdm. lia.
Qed.

(** The decode hash of [Run]: a 12-bit number whose low four bits are bits
    7..4 of the instruction and whose high eight bits are bits 27..20. *)
Lemma arm_hash_bits (instruction : Z) :
  let hash := Z.lor (Z.land (Z.shiftr instruction 16) 0xFF0)
                    (Z.land (Z.shiftr instruction 4) 0x00F) in
  0 <= hash < 4096 /\
  (forall n, 0 <= n < 4 -> Z.testbit hash n = Z.testbit instruction (n + 4)) /\
  (forall n, 4 <= n < 12 -> Z.testbit hash n = Z.testbit instruction (n + 16)).
Proof.
  cbv zeta.
  set (hi := Z.land (Z.shiftr instruction 16) 0xFF0).
  set (lo := Z.land (Z.shiftr instruction 4) 0x00F).
  assert (Hhi : forall n, 0 <= n ->
                  Z.testbit hi n = Z.testbit instruction (n + 16) && Z.testbit 0xFF0 n).
  { intros n Hn. unfold hi. now rewrite Z.land_spec, Z.shiftr_spec by lia. }
  assert (Hlo : forall n, 0 <= n ->
                  Z.testbit lo n = Z.testbit instruction (n + 4) && Z.testbit 0x00F n).
  { intros n Hn. unfold lo. now rewrite Z.land_spec, Z.shiftr_spec by lia. }
  assert (Hmask : forall (mask : Z) n, 0 <= mask < 4096 -> 12 <= n -> Z.testbit mask n = false).
  { intros mask n Hmask Hn. destruct (Z.eq_dec mask 0) as [->|Hnz].
    - apply Z.testbit_0_l.
    - apply Z.bits_above_log2; [lia|].
      assert (Z.log2 mask < 12) by (apply Z.log2_lt_pow2; lia). lia. }
  split; [|split].
  - assert (Hle : Z.lor hi lo = Z.land (Z.lor hi lo) (Z.ones 12)).
    { apply Z.bits_inj'. intros n Hn.
      rewrite Z.land_spec, Z.lor_spec, Hhi, Hlo by assumption.
      destruct (Z.lt_ge_cases n 12) as [Hlt|Hge].
      - rewrite Z.ones_spec_low by lia. now rewrite andb_true_r.
      - rewrite (Hmask 0xFF0 n), (Hmask 0x00F n) by lia.
        now rewrite !andb_false_r. }
    rewrite Hle, Z.land_ones by lia.
    apply Z.mod_pos_bound. lia.
  - intros n Hn. rewrite Z.lor_spec, Hhi, Hlo by lia.
    assert (Hc : n = 0 \/ n = 1 \/ n = 2 \/ n = 3) by lia.
    destruct Hc as [ -> | [ -> | [ -> | -> ] ] ]; cbn [Z.testbit]; cbn;
      now rewrite ?andb_false_r, ?andb_true_r, ?orb_false_l.
  - intros n Hn. rewrite Z.lor_spec, Hhi, Hlo by lia.
    assert (Hc : n = 4 \/ n = 5 \/ n = 6 \/ n = 7 \/ n = 8 \/ n = 9 \/ n = 10 \/ n = 11)
      by lia.
    destruct Hc as [ -> | [ -> | [ -> | [ -> | [ -> | [ -> | [ -> | -> ] ] ] ] ] ] ]; cbn [Z.testbit]; cbn;
      now rewrite ?andb_false_r, ?andb_true_r, ?orb_false_r.
Qed.

Section DispatchLemmas.

Context {Bus : Type} `{Interface Bus}.
Variable arm_lut : Z -> Z -> ARM7 Bus -> ARM7 Bus.
Variable thumb_lut : Z -> Z -> ARM7 Bus -> ARM7 Bus.
Implicit Types (cpu : ARM7 Bus) (i : nat).

Lemma prefetch_thumb_eq cpu :
  prefetch_thumb cpu
  = mkARM7 Bus
      (state (set_reg 15 (Z.land (get_reg 15 cpu) 0xFFFFFFFE) cpu))
      (pipe1 cpu)
      (fst (bus_ReadHalf (get_reg 15 (set_reg 15 (Z.land (get_reg 15 cpu) 0xFFFFFFFE) cpu))
              ACCESS_SEQ (interface cpu)))
      (p_spsr cpu)
      (snd (bus_ReadHalf (get_reg 15 (set_reg 15 (Z.land (get_reg 15 cpu) 0xFFFFFFFE) cpu))
              ACCESS_SEQ (interface cpu)))
      (bus_log cpu
       ++ [mkBusAccess HALF
             (get_reg 15 (set_reg 15 (Z.land (get_reg 15 cpu) 0xFFFFFFFE) cpu))
             ACCESS_SEQ]).
Proof.
  unfold prefetch_thumb, ReadHalf.
  change (u32 (Z.lnot 1)) with 0xFFFFFFFE.
  cbv zeta. rewrite interface_ReadHalf_eq. reflexivity.
Qed.

Lemma land_clears_low (pc mask low : Z) :
  Z.land mask low = 0 -> Z.land (Z.land pc mask) low = 0.
Proof. intros E. now rewrite <- Z.land_assoc, E, Z.land_0_r. Qed.

(** X9: an ARM step whose condition holds invokes [arm_lut[hash]] and
    nothing else, with a hash below 4096 made of bits 27..20 and 7..4 of
    the instruction.  The handler receives the instruction and a core
    with r15 word-aligned and not advanced, slot 1 moved to slot 0, slot 1
    filled by one sequential word read at r15, and r0..r14, the status
    register and the banks as before the step. *)
Theorem Run_arm_executes cpu :
  well_formed cpu ->
  f_thumb (cpsr (state cpu)) = false ->
  CheckCondition (cpsr (state cpu)) (Condition_of_Z (Z.shiftr (pipe0 cpu) 28)) = true ->
  Run arm_lut thumb_lut cpu
  = arm_lut (Z.lor (Z.land (Z.shiftr (pipe0 cpu) 16) 0xFF0)
                   (Z.land (Z.shiftr (pipe0 cpu) 4) 0x00F))
      (pipe0 cpu) (prefetch_arm cpu) /\
  0 <= Z.lor (Z.land (Z.shiftr (pipe0 cpu) 16) 0xFF0)
             (Z.land (Z.shiftr (pipe0 cpu) 4) 0x00F) < 4096 /\
  get_reg 15 (prefetch_arm cpu) = Z.land (get_reg 15 cpu) 0xFFFFFFFC /\
  Z.land (get_reg 15 (prefetch_arm cpu)) 3 = 0 /\
  (forall i, (i < 15)%nat -> get_reg i (prefetch_arm cpu) = get_reg i cpu) /\
  pipe0 (prefetch_arm cpu) = pipe1 cpu /\
  pipe1 (prefetch_arm cpu)
  = fst (bus_ReadWord (Z.land (get_reg 15 cpu) 0xFFFFFFFC) ACCESS_SEQ (interface cpu)) /\
  bus_log (prefetch_arm cpu)
  = bus_log cpu ++ [mkBusAccess WORD (Z.land (get_reg 15 cpu) 0xFFFFFFFC) ACCESS_SEQ] /\
  cpsr (state (prefetch_arm cpu)) = cpsr (state cpu) /\
  bank (state (prefetch_arm cpu)) = bank (state cpu) /\
  spsr (state (prefetch_arm cpu)) = spsr (state cpu).
Proof.
  intros Hwf Ht Hc.
  assert (Hpc : get_reg 15 (set_reg 15 (Z.land (get_reg 15 cpu) 0xFFFFFFFC) cpu)
                = Z.land (get_reg 15 cpu) 0xFFFFFFFC).
  { rewrite get_reg_set_reg by first [assumption | lia]. now rewrite decide_True. }
  split.
  { unfold Run. rewrite Ht. cbv zeta.
    replace (cpsr (state (prefetch_arm cpu))) with (cpsr (state cpu))
      by now rewrite prefetch_arm_eq.
    now rewrite Hc. }
  split; [exact (proj1 (arm_hash_bits (pipe0 cpu)))|].
  rewrite prefetch_arm_eq, Hpc.
  cbn [pipe0 pipe1 bus_log state].
  change (get_reg ?i (mkARM7 Bus ?s ?p0 ?p1 ?ps ?b ?lg)) with (get_reg i (mkARM7 Bus s (pipe0 cpu) (pipe1 cpu) (p_spsr cpu) (interface cpu) (bus_log cpu))).
  change (mkARM7 Bus (state (set_reg 15 ?x cpu)) (pipe0 cpu) (pipe1 cpu) (p_spsr cpu)
            (interface cpu) (bus_log cpu)) with (set_reg 15 x cpu).
  rewrite Hpc.
  split; [reflexivity|].
  split; [now apply land_clears_low|].
  split.
  { intros i Hi. rewrite get_reg_set_reg by first [assumption | lia].
    now rewrite decide_False by lia. }
  repeat split.
Qed.

(** X10: a Thumb step hands its handler a core with r15 halfword-aligned
    and not advanced, slot 1 moved to slot 0, slot 1 filled by one
    sequential halfword read at r15, and r0..r14, the status register and
    the banks as before the step. *)
Theorem Run_thumb_prefetch cpu :
  well_formed cpu ->
  f_thumb (cpsr (state cpu)) = true ->
  Run arm_lut thumb_lut cpu
  = thumb_lut (Z.shiftr (pipe0 cpu) 6) (pipe0 cpu) (prefetch_thumb cpu) /\
  get_reg 15 (prefetch_thumb cpu) = Z.land (get_reg 15 cpu) 0xFFFFFFFE /\
  Z.land (get_reg 15 (prefetch_thumb cpu)) 1 = 0 /\
  (forall i, (i < 15)%nat -> get_reg i (prefetch_thumb cpu) = get_reg i cpu) /\
  pipe0 (prefetch_thumb cpu) = pipe1 cpu /\
  pipe1 (prefetch_thumb cpu)
  = fst (bus_ReadHalf (Z.land (get_reg 15 cpu) 0xFFFFFFFE) ACCESS_SEQ (interface cpu)) /\
  bus_log (prefetch_thumb cpu)
  = bus_log cpu ++ [mkBusAccess HALF (Z.land (get_reg 15 cpu) 0xFFFFFFFE) ACCESS_SEQ] /\
  cpsr (state (prefetch_thumb cpu)) = cpsr (state cpu) /\
  bank (state (prefetch_thumb cpu)) = bank (state cpu) /\
  spsr (state (prefetch_thumb cpu)) = spsr (state cpu).
Proof.
  intros Hwf Ht.
  assert (Hpc : get_reg 15 (set_reg 15 (Z.land (get_reg 15 cpu) 0xFFFFFFFE) cpu)
                = Z.land (get_reg 15 cpu) 0xFFFFFFFE).
  { rewrite get_reg_set_reg by first [assumption | lia]. now rewrite decide_True. }
  split; [unfold Run; now rewrite Ht|].
  rewrite prefetch_thumb_eq, Hpc.
  cbn [pipe0 pipe1 bus_log state].
  change (get_reg ?i (mkARM7 Bus ?s ?p0 ?p1 ?ps ?b ?lg)) with (get_reg i (mkARM7 Bus s (pipe0 cpu) (pipe1 cpu) (p_spsr cpu) (interface cpu) (bus_log cpu))).
  change (mkARM7 Bus (state (set_reg 15 ?x cpu)) (pipe0 cpu) (pipe1 cpu) (p_spsr cpu)
            (interface cpu) (bus_log cpu)) with (set_reg 15 x cpu).
  rewrite Hpc.
  split; [reflexivity|].
  split; [now apply land_clears_low|].
  split.
  { intros i Hi. rewrite get_reg_set_reg by first [assumption | lia].
    now rewrite decide_False by lia. }
  repeat split.
Qed.

End DispatchLemmas.

(** ** Dispatch: sequences of steps *)

Lemma u32_aligned_step (pc : Z) :
  0 <= pc < 2 ^ 32 -> Z.land pc 3 = 0 ->
  0 <= u32 (pc + 4) < 2 ^ 32 /\ Z.land (u32 (pc + 4)) 3 = 0.
Proof.
  intros Hpc Hlow. unfold u32. split; [apply Z.mod_pos_bound; lia|].
  change 3 with (Z.ones 2) in *. rewrite Z.land_ones in * by lia.
  rewrite Z.mod_mod_divide by (exists (2 ^ 30); reflexivity).
  rewrite Z.add_mod, Hlow by lia. reflexivity.
Qed.

Lemma u32_add_u32 (a b : Z) : u32 (u32 a + b) = u32 (a + b).
Proof. unfold u32. now rewrite Z.add_mod_idemp_l by lia. Qed.

Section StepLemmas.

Context {Bus : Type} `{Interface Bus}.
Variable arm_lut : Z -> Z -> ARM7 Bus -> ARM7 Bus.
Variable thumb_lut : Z -> Z -> ARM7 Bus -> ARM7 Bus.
Implicit Types (cpu : ARM7 Bus) (i : nat).

Lemma set_reg_set_reg i x y cpu : set_reg i y (set_reg i x cpu) = set_reg i y cpu.
Proof.
  unfold set_reg, with_state. cbn [state reg bank cpsr spsr pipe0 pipe1 p_spsr interface bus_log].
  now rewrite list_insert_insert_eq.
Qed.

(** One ARM step over an instruction whose condition field is NV, from a
    word-aligned program counter. *)
Lemma Run_skip_NV cpu :
  well_formed cpu ->
  f_thumb (cpsr (state cpu)) = false ->
  Z.shiftr (pipe0 cpu) 28 = 15 ->
  0 <= get_reg 15 cpu < 2 ^ 32 -> Z.land (get_reg 15 cpu) 3 = 0 ->
  Run arm_lut thumb_lut cpu
  = mkARM7 Bus
      (state (set_reg 15 (u32 (get_reg 15 cpu + 4)) cpu))
      (pipe1 cpu)
      (fst (bus_ReadWord (get_reg 15 cpu) ACCESS_SEQ (interface cpu)))
      (p_spsr cpu)
      (snd (bus_ReadWord (get_reg 15 cpu) ACCESS_SEQ (interface cpu)))
      (bus_log cpu ++ [mkBusAccess WORD (get_reg 15 cpu) ACCESS_SEQ]).
Proof.
  intros Hwf Ht Hnv Hpc Hlow.
  rewrite Run_skip; [| assumption | now rewrite Hnv].
  assert (Hal : get_reg 15 (set_reg 15 (Z.land (get_reg 15 cpu) 0xFFFFFFFC) cpu)
                = get_reg 15 cpu).
  { rewrite get_reg_set_reg by first [assumption | lia].
    rewrite decide_True by reflexivity. now apply land_word_aligned. }
  rewrite prefetch_arm_eq, Hal.
  change (get_reg 15 (mkARM7 Bus (state ?c) ?p0 ?p1 ?ps ?b ?lg)) with (get_reg 15 c).
  rewrite Hal.
  unfold set_reg at 1. unfold with_state at 1.
  cbn [state pipe0 pipe1 p_spsr interface bus_log].
  f_equal.
  change (state (set_reg 15 (u32 (get_reg 15 cpu + 4))
                   (set_reg 15 (Z.land (get_reg 15 cpu) 0xFFFFFFFC) cpu))
          = state (set_reg 15 (u32 (get_reg 15 cpu + 4)) cpu)).
  now rewrite set_reg_set_reg.
Qed.

End StepLemmas.

Section SequenceLemmas.

Context {Bus : Type} `{Interface Bus}.
Variable arm_lut : Z -> Z -> ARM7 Bus -> ARM7 Bus.
Variable thumb_lut : Z -> Z -> ARM7 Bus -> ARM7 Bus.
Implicit Types (cpu : ARM7 Bus) (i : nat).

(** X11: in front of a bus that returns only words with condition field NV,
    [n] ARM steps from a word-aligned program counter invoke no handler,
    advance r15 by 4 each (in 32-bit arithmetic), make one sequential word
    read per step at the successive addresses, and leave r0..r14, the
    status register, the banks and the saved-status slots as they were. *)
Theorem Run_times_skips (n : nat) cpu :
  (forall address kind b, Z.shiftr (fst (bus_ReadWord address kind b)) 28 = 15) ->
  well_formed cpu ->
  f_thumb (cpsr (state cpu)) = false ->
  Z.shiftr (pipe0 cpu) 28 = 15 -> Z.shiftr (pipe1 cpu) 28 = 15 ->
  0 <= get_reg 15 cpu < 2 ^ 32 -> Z.land (get_reg 15 cpu) 3 = 0 ->
  get_reg 15 (Run_times arm_lut thumb_lut n cpu) = u32 (get_reg 15 cpu + 4 * Z.of_nat n) /\
  (forall i, (i < 15)%nat ->
     get_reg i (Run_times arm_lut thumb_lut n cpu) = get_reg i cpu) /\
  cpsr (state (Run_times arm_lut thumb_lut n cpu)) = cpsr (state cpu) /\
  bank (state (Run_times arm_lut thumb_lut n cpu)) = bank (state cpu) /\
  spsr (state (Run_times arm_lut thumb_lut n cpu)) = spsr (state cpu) /\
  bus_log (Run_times arm_lut thumb_lut n cpu)
  = bus_log cpu
    ++ map (fun j => mkBusAccess WORD (u32 (get_reg 15 cpu + 4 * Z.of_nat j)) ACCESS_SEQ)
         (seq 0 n) /\
  (forall other_arm_lut other_thumb_lut,
     Run_times other_arm_lut other_thumb_lut n cpu = Run_times arm_lut thumb_lut n cpu).
Proof.
  intros Hbus. revert cpu.
  induction n as [|n IH]; intros cpu Hwf Ht Hp0 Hp1 Hpc Hlow.
  - cbn [Run_times seq map]. rewrite Z.mul_0_r, Z.add_0_r, app_nil_r.
    unfold u32. rewrite Z.mod_small by assumption. repeat split.
  - cbn [Run_times].
    pose proof (Run_skip_NV arm_lut thumb_lut cpu Hwf Ht Hp0 Hpc Hlow) as Hstep.
    set (next := Run arm_lut thumb_lut cpu) in *.
    assert (Hr15 : get_reg 15 next = u32 (get_reg 15 cpu + 4)).
    { rewrite Hstep.
      change (get_reg 15 (set_reg 15 (u32 (get_reg 15 cpu + 4)) cpu)
              = u32 (get_reg 15 cpu + 4)).
      rewrite get_reg_set_reg by first [assumption | lia]. now rewrite decide_True. }
    assert (Hregs : forall i, (i < 15)%nat -> get_reg i next = get_reg i cpu).
    { intros i Hi. rewrite Hstep.
      change (get_reg i (set_reg 15 (u32 (get_reg 15 cpu + 4)) cpu) = get_reg i cpu).
      rewrite get_reg_set_reg by first [assumption | lia]. now rewrite decide_False by lia. }
    assert (Hwf' : well_formed next).
    { rewrite Hstep.
      change (well_formed (set_reg 15 (u32 (get_reg 15 cpu + 4)) cpu)).
      now apply well_formed_set_reg. }
    destruct (u32_aligned_step (get_reg 15 cpu) Hpc Hlow) as [Hpc' Hlow'].
    rewrite <- Hr15 in Hpc', Hlow'.
    destruct (IH next) as (H15 & Hrest & Hcpsr & Hbank & Hspsr & Hlog & Htab).
    + exact Hwf'.
    + rewrite Hstep. exact Ht.
    + rewrite Hstep. exact Hp1.
    + rewrite Hstep. apply Hbus.
    + exact Hpc'.
    + exact Hlow'.
    + rewrite H15, Hcpsr, Hbank, Hspsr, Hlog, Hr15.
      split; [rewrite u32_add_u32; f_equal; lia|].
      split; [intros i Hi; rewrite Hrest by assumption; now apply Hregs|].
      split; [now rewrite Hstep|]. split; [now rewrite Hstep|]. split; [now rewrite Hstep|].
      split.
      * rewrite Hstep. cbn [bus_log seq map].
        rewrite <- app_assoc. cbn [app]. f_equal. f_equal.
        -- f_equal. rewrite Z.mul_0_r, Z.add_0_r. unfold u32.
           now rewrite Z.mod_small by assumption.
        -- rewrite <- seq_shift, map_map. apply map_ext. intros j.
           rewrite u32_add_u32. do 2 f_equal. lia.
      * intros other_arm_lut other_thumb_lut. cbn [Run_times].
        rewrite (Run_skip_NV other_arm_lut other_thumb_lut cpu Hwf Ht Hp0 Hpc Hlow).
        rewrite <- Hstep. apply Htab.
Qed.

End SequenceLemmas.

(** ** Refill and interrupt entry, composed with the other operations *)

Create Rewrite HintDb frame.

Section FrameRewrites.

Context {Bus : Type} `{Interface Bus}.
Implicit Types (cpu : ARM7 Bus) (i k l : nat).

Lemma get_reg_set_thumb i t cpu : get_reg i (set_thumb t cpu) = get_reg i cpu.
Proof. reflexivity. Qed.

Lemma get_reg_set_mask_irq i t cpu : get_reg i (set_mask_irq t cpu) = get_reg i cpu.
Proof. reflexivity. Qed.

Lemma get_reg_set_spsr i b w cpu : get_reg i (set_spsr b w cpu) = get_reg i cpu.
Proof. reflexivity. Qed.

Lemma get_bank_set_thumb k l t cpu : get_bank k l (set_thumb t cpu) = get_bank k l cpu.
Proof. reflexivity. Qed.

Lemma get_bank_set_mask_irq k l t cpu : get_bank k l (set_mask_irq t cpu) = get_bank k l cpu.
Proof. reflexivity. Qed.

Lemma get_bank_set_spsr k l b w cpu : get_bank k l (set_spsr b w cpu) = get_bank k l cpu.
Proof. reflexivity. Qed.

Lemma shape_set_thumb t cpu : shape (set_thumb t cpu) = shape cpu.
Proof. reflexivity. Qed.

Lemma shape_set_mask_irq t cpu : shape (set_mask_irq t cpu) = shape cpu.
Proof. reflexivity. Qed.

Lemma get_bank_RefillA k l cpu : get_bank k l (RefillA cpu) = get_bank k l cpu.
Proof. now rewrite RefillA_eq. Qed.

Lemma cpsr_RefillA cpu : cpsr (state (RefillA cpu)) = cpsr (state cpu).
Proof. now rewrite RefillA_eq. Qed.

Lemma shape_RefillA cpu : shape (RefillA cpu) = shape cpu.
Proof.
  rewrite RefillA_eq.
  change (shape (set_reg 15 (u32 (get_reg 15 cpu + 8)) cpu) = shape cpu).
  apply shape_set_reg.
Qed.

Lemma get_reg_RefillA i cpu :
  well_formed cpu ->
  get_reg i (RefillA cpu)
  = if decide (i = 15%nat) then u32 (get_reg 15 cpu + 8) else get_reg i cpu.
Proof.
  intros Hwf. rewrite RefillA_eq.
  change (get_reg i (set_reg 15 (u32 (get_reg 15 cpu + 8)) cpu)
          = if decide (i = 15%nat) then u32 (get_reg 15 cpu + 8) else get_reg i cpu).
  now rewrite get_reg_set_reg by first [assumption | lia].
Qed.

End FrameRewrites.

#[export] Hint Rewrite @get_reg_set_thumb @get_reg_set_mask_irq @get_reg_set_spsr
  @get_bank_set_thumb @get_bank_set_mask_irq @get_bank_set_spsr @get_bank_RefillA
  @get_bank_set_reg @get_reg_set_bank @get_reg_set_mode @get_bank_set_mode : frame.

#[export] Hint Rewrite @shape_set_thumb @shape_set_mask_irq @shape_set_spsr
  @shape_RefillA : shape.

Section InterruptLemmas.

Context {Bus : Type} `{Interface Bus}.
Implicit Types (cpu : ARM7 Bus) (i k l : nat).

(** X12: a second [SignalIrq] right after the first is dropped: the first
    one leaves the mask set, or was dropped itself. *)
Theorem SignalIrq_idempotent cpu : SignalIrq (SignalIrq cpu) = SignalIrq cpu.
Proof.
  destruct (f_mask_irq (cpsr (state cpu))) eqn:Hmask.
  - unfold SignalIrq at 2. rewrite Hmask.
    unfold SignalIrq. now rewrite Hmask.
  - assert (Hset : f_mask_irq (cpsr (state (SignalIrq cpu))) = true).
    { rewrite (SignalIrq_unmasked cpu Hmask), cpsr_RefillA. reflexivity. }
    unfold SignalIrq at 1. now rewrite Hset.
Qed.


(** X14: interrupt entry keeps the interrupted context: coming from a mode
    other than interrupt mode, a switch back to that mode after
    [SignalIrq] shows r0..r14 as they were before the interrupt. *)
Theorem SignalIrq_then_return cpu i :
  well_formed cpu ->
  f_mask_irq (cpsr (state cpu)) = false ->
  f_mode (cpsr (state cpu)) <> MODE_IRQ ->
  0 <= f_mode (cpsr (state cpu)) < 32 ->
  (i < 15)%nat ->
  get_reg i (SwitchMode (f_mode (cpsr (state cpu))) (SignalIrq cpu)) = get_reg i cpu.
Proof.
  intros Hwf Hmask Hmode Hrange Hi.
  assert (Ha : ModeToBank (f_mode (cpsr (state cpu))) <> BANK_IRQ).
  { intros E. now apply ModeToBank_IRQ in E. }
  rewrite (SignalIrq_unmasked cpu Hmask).
  set (stored := set_spsr (Bank_idx BANK_IRQ) (cpsr (state cpu))
                   (set_bank (Bank_idx BANK_IRQ) BANK_R14 (irq_return_address cpu) cpu)).
  assert (Hwf1 : well_formed stored) by (unfold stored; wf_ok).
  assert (Hwf2 : well_formed (SwitchMode MODE_IRQ stored))
    by now apply well_formed_SwitchMode.
  assert (Hirq : f_mode (cpsr (state (SwitchMode MODE_IRQ stored))) = MODE_IRQ).
  { apply f_mode_SwitchMode. unfold MODE_IRQ. lia. }
  rewrite get_reg_SwitchMode by wf_ok.
  rewrite cpsr_RefillA.
  change (f_mode (cpsr (state (set_reg 15 24 (set_mask_irq true (set_thumb false ?c))))))
    with (f_mode (cpsr (state c))).
  rewrite Hirq.
  rewrite !get_reg_RefillA by wf_ok.
  rewrite !get_reg_set_reg by first [wf_ok | lia].
  autorewrite with frame.
  rewrite !(get_bank_SwitchMode _ _ MODE_IRQ stored), !(get_reg_SwitchMode _ MODE_IRQ stored)
    by assumption.
  change (f_mode (cpsr (state stored))) with (f_mode (cpsr (state cpu))).
  unfold stored. autorewrite with frame.
  rewrite !get_bank_set_bank by first [wf_ok | unfold BANK_R14; lia].
  change (ModeToBank MODE_IRQ) with BANK_IRQ.
  generalize dependent (ModeToBank (f_mode (cpsr (state cpu)))). intros a Ha.
  destruct a; try congruence; clear Ha;
    cbn [swaps_gprs gpr_bank Bank_eqb orb Bank_idx];
    unfold BANK_R13, BANK_R14; close_cases; f_equal; lia.
Qed.

End InterruptLemmas.

(** ** The pipeline after a reset and after a refill *)

Lemma land_3_add_8 (pc : Z) : Z.land pc 3 = 0 -> Z.land (pc + 8) 3 = 0.
Proof.
  change 3 with (Z.ones 2). rewrite !Z.land_ones by lia. intros Hlow.
  rewrite Z.add_mod, Hlow by lia. reflexivity.
Qed.

Lemma land_1_add_4 (pc : Z) : Z.land pc 1 = 0 -> Z.land (pc + 4) 1 = 0.
Proof.
  intros Hlow.
  change (Z.land (pc + 4) (Z.ones 1) = 0). change (Z.land pc (Z.ones 1) = 0) in Hlow.
  rewrite Z.land_ones in * by lia.
  rewrite Z.add_mod, Hlow by lia. reflexivity.
Qed.

Section PipelineLemmas.

Context {Bus : Type} `{Interface Bus}.
Variable arm_lut : Z -> Z -> ARM7 Bus -> ARM7 Bus.
Variable thumb_lut : Z -> Z -> ARM7 Bus -> ARM7 Bus.
Implicit Types (cpu : ARM7 Bus) (i : nat).

(** [RefillT] written out: two halfword reads, then r15 advanced by 4. *)
Lemma RefillT_eq cpu :
  RefillT cpu
  = mkARM7 Bus
      (state (set_reg 15 (u32 (get_reg 15 cpu + 4)) cpu))
      (fst (bus_ReadHalf (u32 (get_reg 15 cpu + 0)) ACCESS_NSEQ (interface cpu)))
      (fst (bus_ReadHalf (u32 (get_reg 15 cpu + 2)) ACCESS_SEQ
              (snd (bus_ReadHalf (u32 (get_reg 15 cpu + 0)) ACCESS_NSEQ (interface cpu)))))
      (p_spsr cpu)
      (snd (bus_ReadHalf (u32 (get_reg 15 cpu + 2)) ACCESS_SEQ
              (snd (bus_ReadHalf (u32 (get_reg 15 cpu + 0)) ACCESS_NSEQ (interface cpu)))))
      (bus_log cpu ++ [mkBusAccess HALF (u32 (get_reg 15 cpu + 0)) ACCESS_NSEQ;
                       mkBusAccess HALF (u32 (get_reg 15 cpu + 2)) ACCESS_SEQ]).
Proof.
  unfold RefillT.
  rewrite interface_ReadHalf_eq. cbv beta iota zeta.
  rewrite interface_ReadHalf_eq. cbv beta iota zeta.
  unfold set_reg, set_pipe1, set_pipe0, with_state, get_reg.
  cbn [state pipe0 pipe1 p_spsr interface bus_log].
  rewrite <- app_assoc. reflexivity.
Qed.

(** [Run] in ARM state, by the outcome of the condition. *)
Lemma Run_arm_eq cpu :
  f_thumb (cpsr (state cpu)) = false ->
  Run arm_lut thumb_lut cpu
  = if CheckCondition (cpsr (state cpu)) (Condition_of_Z (Z.shiftr (pipe0 cpu) 28))
    then arm_lut (Z.lor (Z.land (Z.shiftr (pipe0 cpu) 16) 0xFF0)
                        (Z.land (Z.shiftr (pipe0 cpu) 4) 0x00F))
           (pipe0 cpu) (prefetch_arm cpu)
    else set_reg 15 (u32 (get_reg 15 (prefetch_arm cpu) + 4)) (prefetch_arm cpu).
Proof.
  intros Ht. unfold Run. rewrite Ht. cbv zeta.
  replace (cpsr (state (prefetch_arm cpu))) with (cpsr (state cpu))
    by now rewrite prefetch_arm_eq.
  reflexivity.
Qed.

(** X15: after [RefillA] at a word-aligned address [pc], the next step
    dispatches the word read at [pc]; its handler, if the condition holds,
    sees r15 = pc + 8 and the word read at pc + 4 in slot 0; if the
    condition fails r15 moves on to pc + 12.  The three reads are at pc
    (non-sequential), pc + 4 and pc + 8 (sequential). *)
Theorem RefillA_then_Run cpu :
  well_formed cpu ->
  f_thumb (cpsr (state cpu)) = false ->
  0 <= get_reg 15 cpu -> get_reg 15 cpu + 8 < 2 ^ 32 ->
  Z.land (get_reg 15 cpu) 3 = 0 ->
  pipe0 (RefillA cpu) = fst (bus_ReadWord (get_reg 15 cpu) ACCESS_NSEQ (interface cpu)) /\
  Run arm_lut thumb_lut (RefillA cpu)
  = (if CheckCondition (cpsr (state cpu))
          (Condition_of_Z (Z.shiftr (pipe0 (RefillA cpu)) 28))
     then arm_lut (Z.lor (Z.land (Z.shiftr (pipe0 (RefillA cpu)) 16) 0xFF0)
                         (Z.land (Z.shiftr (pipe0 (RefillA cpu)) 4) 0x00F))
            (pipe0 (RefillA cpu)) (prefetch_arm (RefillA cpu))
     else set_reg 15 (u32 (get_reg 15 cpu + 12)) (prefetch_arm (RefillA cpu))) /\
  get_reg 15 (prefetch_arm (RefillA cpu)) = get_reg 15 cpu + 8 /\
  pipe0 (prefetch_arm (RefillA cpu))
  = fst (bus_ReadWord (get_reg 15 cpu + 4) ACCESS_SEQ
           (snd (bus_ReadWord (get_reg 15 cpu) ACCESS_NSEQ (interface cpu)))) /\
  bus_log (prefetch_arm (RefillA cpu))
  = bus_log cpu ++ [mkBusAccess WORD (get_reg 15 cpu) ACCESS_NSEQ;
                    mkBusAccess WORD (get_reg 15 cpu + 4) ACCESS_SEQ;
                    mkBusAccess WORD (get_reg 15 cpu + 8) ACCESS_SEQ].
Proof.
  intros Hwf Ht Hlo Hhi Hal.
  assert (H0 : u32 (get_reg 15 cpu + 0) = get_reg 15 cpu).
  { rewrite Z.add_0_r. unfold u32. apply Z.mod_small. lia. }
  assert (H4 : u32 (get_reg 15 cpu + 4) = get_reg 15 cpu + 4).
  { unfold u32. apply Z.mod_small. lia. }
  assert (H8 : u32 (get_reg 15 cpu + 8) = get_reg 15 cpu + 8).
  { unfold u32. apply Z.mod_small. lia. }
  assert (Hwf1 : well_formed (RefillA cpu)) by wf_ok.
  assert (Hpc1 : get_reg 15 (RefillA cpu) = get_reg 15 cpu + 8).
  { rewrite get_reg_RefillA by assumption. now rewrite decide_True, H8. }
  assert (Hpc2 : get_reg 15 (prefetch_arm (RefillA cpu)) = get_reg 15 cpu + 8).
  { rewrite prefetch_arm_eq.
    change (get_reg 15 (set_reg 15 (Z.land (get_reg 15 (RefillA cpu)) 0xFFFFFFFC) (RefillA cpu))
            = get_reg 15 cpu + 8).
    rewrite get_reg_set_reg by first [assumption | lia].
    rewrite decide_True by reflexivity. rewrite Hpc1.
    apply land_word_aligned; [lia | now apply land_3_add_8]. }
  split; [rewrite RefillA_eq, H0; reflexivity|].
  split.
  { rewrite Run_arm_eq by (now rewrite cpsr_RefillA).
    rewrite cpsr_RefillA, Hpc2.
    now replace (get_reg 15 cpu + 8 + 4) with (get_reg 15 cpu + 12) by lia. }
  split; [exact Hpc2|].
  rewrite prefetch_arm_eq.
  cbn [pipe0 bus_log].
  rewrite get_reg_set_reg by first [assumption | lia].
  rewrite decide_True by reflexivity.
  rewrite Hpc1, (land_word_aligned (get_reg 15 cpu + 8)) by first [lia | now apply land_3_add_8].
  rewrite RefillA_eq. cbn [pipe1 bus_log]. rewrite H0, H4.
  split; [reflexivity|].
  now rewrite <- app_assoc.
Qed.

(** X16: after [RefillT] at a halfword-aligned address [pc], the next step
    invokes the Thumb handler of the halfword read at [pc]; the handler
    sees r15 = pc + 4 and the halfword read at pc + 2 in slot 0.  The three
    reads are at pc (non-sequential), pc + 2 and pc + 4 (sequential). *)
Theorem RefillT_then_Run cpu :
  well_formed cpu ->
  f_thumb (cpsr (state cpu)) = true ->
  0 <= get_reg 15 cpu -> get_reg 15 cpu + 4 < 2 ^ 32 ->
  Z.land (get_reg 15 cpu) 1 = 0 ->
  pipe0 (RefillT cpu) = fst (bus_ReadHalf (get_reg 15 cpu) ACCESS_NSEQ (interface cpu)) /\
  Run arm_lut thumb_lut (RefillT cpu)
  = thumb_lut (Z.shiftr (pipe0 (RefillT cpu)) 6) (pipe0 (RefillT cpu))
      (prefetch_thumb (RefillT cpu)) /\
  get_reg 15 (prefetch_thumb (RefillT cpu)) = get_reg 15 cpu + 4 /\
  pipe0 (prefetch_thumb (RefillT cpu))
  = fst (bus_ReadHalf (get_reg 15 cpu + 2) ACCESS_SEQ
           (snd (bus_ReadHalf (get_reg 15 cpu) ACCESS_NSEQ (interface cpu)))) /\
  bus_log (prefetch_thumb (RefillT cpu))
  = bus_log cpu ++ [mkBusAccess HALF (get_reg 15 cpu) ACCESS_NSEQ;
                    mkBusAccess HALF (get_reg 15 cpu + 2) ACCESS_SEQ;
                    mkBusAccess HALF (get_reg 15 cpu + 4) ACCESS_SEQ].
Proof.
  intros Hwf Ht Hlo Hhi Hal.
  assert (H0 : u32 (get_reg 15 cpu + 0) = get_reg 15 cpu).
  { rewrite Z.add_0_r. unfold u32. apply Z.mod_small. lia. }
  assert (H2 : u32 (get_reg 15 cpu + 2) = get_reg 15 cpu + 2).
  { unfold u32. apply Z.mod_small. lia. }
  assert (H4 : u32 (get_reg 15 cpu + 4) = get_reg 15 cpu + 4).
  { unfold u32. apply Z.mod_small. lia. }
  assert (Hwf1 : well_formed (RefillT cpu)).
  { rewrite RefillT_eq.
    change (well_formed (set_reg 15 (u32 (get_reg 15 cpu + 4)) cpu)).
    now apply well_formed_set_reg. }
  assert (Hpc1 : get_reg 15 (RefillT cpu) = get_reg 15 cpu + 4).
  { rewrite RefillT_eq.
    change (get_reg 15 (set_reg 15 (u32 (get_reg 15 cpu + 4)) cpu) = get_reg 15 cpu + 4).
    rewrite get_reg_set_reg by first [assumption | lia]. now rewrite decide_True, H4. }
  assert (Hpc2 : get_reg 15 (set_reg 15 (Z.land (get_reg 15 (RefillT cpu)) 0xFFFFFFFE)
                               (RefillT cpu)) = get_reg 15 cpu + 4).
  { rewrite get_reg_set_reg by first [assumption | lia].
    rewrite decide_True by reflexivity. rewrite Hpc1.
    apply land_half_aligned; [lia | now apply land_1_add_4]. }
  split; [rewrite RefillT_eq, H0; reflexivity|].
  split.
  { unfold Run. replace (f_thumb (cpsr (state (RefillT cpu)))) with true
      by (now rewrite RefillT_eq). reflexivity. }
  rewrite prefetch_thumb_eq.
  split; [exact Hpc2|].
  cbn [pipe0 bus_log]. rewrite Hpc2.
  rewrite RefillT_eq. cbn [pipe1 bus_log]. rewrite H0, H2.
  split; [reflexivity|].
  now rewrite <- app_assoc.
Qed.

(** X17: the first two steps after [Reset] invoke no handler, whatever the
    flags and the tables: both pipeline slots hold 0xF0000000, whose
    condition field is NV.  They read the words at 0 and 4 (sequential
    accesses) into the pipeline and leave r15 at 8, r0..r14 at zero and the
    core in system mode. *)
Theorem Reset_then_Run cpu :
  well_formed cpu ->
  get_reg 15 (Run_times arm_lut thumb_lut 2 (Reset cpu)) = 8 /\
  (forall i, (i < 15)%nat -> get_reg i (Run_times arm_lut thumb_lut 2 (Reset cpu)) = 0) /\
  pipe0 (Run_times arm_lut thumb_lut 2 (Reset cpu))
  = fst (bus_ReadWord 0 ACCESS_SEQ (interface cpu)) /\
  pipe1 (Run_times arm_lut thumb_lut 2 (Reset cpu))
  = fst (bus_ReadWord 4 ACCESS_SEQ (snd (bus_ReadWord 0 ACCESS_SEQ (interface cpu)))) /\
  bus_log (Run_times arm_lut thumb_lut 2 (Reset cpu))
  = bus_log cpu ++ [mkBusAccess WORD 0 ACCESS_SEQ; mkBusAccess WORD 4 ACCESS_SEQ] /\
  f_mode (cpsr (state (Run_times arm_lut thumb_lut 2 (Reset cpu)))) = MODE_SYS /\
  (forall other_arm_lut other_thumb_lut,
     Run_times other_arm_lut other_thumb_lut 2 (Reset cpu)
     = Run_times arm_lut thumb_lut 2 (Reset cpu)).
Proof.
  intros Hwf.
  pose (fresh := mkARM7 Bus
                   (mkState (replicate 16 0) (replicate BANK_COUNT (replicate 7 0))
                      (mkStatusRegister MODE_SYS false false false false false false 0)
                      (replicate BANK_COUNT StatusRegister_zero))
                   0xF0000000 0xF0000000 (p_spsr cpu) (interface cpu) (bus_log cpu)).
  assert (Hreset : Reset cpu = fresh).
  { unfold fresh. clear fresh. explode_core cpu Hwf. vm_compute. reflexivity. }
  rewrite Hreset.
  assert (Hwf0 : well_formed fresh) by reflexivity.
  assert (Hpc0 : get_reg 15 fresh = 0) by reflexivity.
  pose (first := mkARM7 Bus (state (set_reg 15 4 fresh)) 0xF0000000
                   (fst (bus_ReadWord 0 ACCESS_SEQ (interface cpu)))
                   (p_spsr cpu)
                   (snd (bus_ReadWord 0 ACCESS_SEQ (interface cpu)))
                   (bus_log cpu ++ [mkBusAccess WORD 0 ACCESS_SEQ])).
  assert (Hwf1 : well_formed first) by reflexivity.
  assert (Hpc1 : get_reg 15 first = 4) by reflexivity.
  pose (second := mkARM7 Bus (state (set_reg 15 8 first))
                    (fst (bus_ReadWord 0 ACCESS_SEQ (interface cpu)))
                    (fst (bus_ReadWord 4 ACCESS_SEQ
                            (snd (bus_ReadWord 0 ACCESS_SEQ (interface cpu)))))
                    (p_spsr cpu)
                    (snd (bus_ReadWord 4 ACCESS_SEQ
                            (snd (bus_ReadWord 0 ACCESS_SEQ (interface cpu)))))
                    ((bus_log cpu ++ [mkBusAccess WORD 0 ACCESS_SEQ])
                     ++ [mkBusAccess WORD 4 ACCESS_SEQ])).
  assert (Hgen : forall a t, Run_times a t 2 fresh = second).
  { intros a t. cbn [Run_times].
    rewrite (Run_skip_NV a t fresh Hwf0 eq_refl eq_refl);
      rewrite Hpc0; [| lia | reflexivity].
    change (Run a t first = second).
    rewrite (Run_skip_NV a t first Hwf1 eq_refl eq_refl);
      rewrite Hpc1; [reflexivity | lia | reflexivity]. }
  rewrite !Hgen.
  split; [reflexivity|].
  split.
  { intros i Hi.
    change (get_reg i (set_reg 15 8 first) = 0).
    rewrite get_reg_set_reg by first [assumption | lia].
    rewrite decide_False by lia.
    do 15 (destruct i as [|i]; [reflexivity|]). lia. }
  split; [reflexivity|]. split; [reflexivity|].
  split; [unfold second; cbn [bus_log]; now rewrite <- app_assoc|].
  split; [reflexivity|].
  intros other_arm_lut other_thumb_lut. apply Hgen.
Qed.

End PipelineLemmas.

(** ** The further properties at work on concrete cores *)

Lemma SetNZ_conditions_witness :
  0 <= 0x80000000 < 2 ^ 32 /\
  CheckCondition (cpsr (state (SetNZ 0x80000000 cpu_usr_arm))) COND_EQ = (0x80000000 =? 0) /\
  CheckCondition (cpsr (state (SetNZ 0x80000000 cpu_usr_arm))) COND_NE
  = negb (0x80000000 =? 0) /\
  CheckCondition (cpsr (state (SetNZ 0x80000000 cpu_usr_arm))) COND_MI
  = (2 ^ 31 <=? 0x80000000).
Proof.
  assert (Hv : 0 <= 0x80000000 < 2 ^ 32) by lia.
  split; [exact Hv|].
  destruct (SetNZ_conditions 0x80000000 cpu_usr_arm Hv) as (Heq & Hne & Hmi & _).
  repeat split; assumption.
Defined.

Lemma SwitchMode_idempotent_witness :
  0 <= MODE_FIQ < 32 /\
  SwitchMode MODE_FIQ (SwitchMode MODE_FIQ cpu_usr_arm) = SwitchMode MODE_FIQ cpu_usr_arm.
Proof.
  assert (Hm : 0 <= MODE_FIQ < 32) by (unfold MODE_FIQ; lia).
  split; [exact Hm|]. exact (SwitchMode_idempotent MODE_FIQ cpu_usr_arm Hm).
Defined.

Lemma SwitchMode_never_touches_witness :
  well_formed cpu_usr_arm /\
  (forall i, (i < 8)%nat \/ i = 15%nat ->
     get_reg i (SwitchMode MODE_FIQ cpu_usr_arm) = get_reg i cpu_usr_arm) /\
  bus_log (SwitchMode MODE_FIQ cpu_usr_arm) = bus_log cpu_usr_arm.
Proof.
  split; [reflexivity|].
  destruct (SwitchMode_never_touches MODE_FIQ cpu_usr_arm eq_refl)
    as (Hregs & _ & _ & _ & _ & _ & _ & _ & _ & _ & _ & Hlog).
  split; assumption.
Defined.

Lemma SwitchMode_bank_frame_witness :
  well_formed cpu_usr_arm /\
  (forall l, get_bank (Bank_idx (ModeToBank MODE_FIQ)) l (SwitchMode MODE_FIQ cpu_usr_arm)
             = get_bank (Bank_idx (ModeToBank MODE_FIQ)) l cpu_usr_arm).
Proof.
  split; [reflexivity|].
  exact (proj1 (SwitchMode_bank_frame MODE_FIQ cpu_usr_arm eq_refl)).
Defined.

Lemma SwitchMode_path_independent_witness :
  well_formed cpu_usr_arm /\
  0 <= MODE_FIQ < 32 /\
  get_reg 10 (SwitchMode MODE_SVC (SwitchMode MODE_FIQ cpu_usr_arm))
  = get_reg 10 (SwitchMode MODE_SVC cpu_usr_arm).
Proof.
  assert (Hm : 0 <= MODE_FIQ < 32) by (unfold MODE_FIQ; lia).
  split; [reflexivity|]. split; [exact Hm|].
  exact (SwitchMode_path_independent MODE_FIQ MODE_SVC cpu_usr_arm 10 eq_refl Hm).
Defined.

Lemma Reset_state_witness :
  well_formed cpu_usr_thumb /\
  Reset cpu_usr_thumb
  = mkARM7 (Z -> Z)
      (mkState (replicate 16 0) (replicate BANK_COUNT (replicate 7 0))
         (mkStatusRegister MODE_SYS false false false false false false 0)
         (replicate BANK_COUNT StatusRegister_zero))
      0xF0000000 0xF0000000 (p_spsr cpu_usr_thumb) (interface cpu_usr_thumb)
      (bus_log cpu_usr_thumb).
Proof.
  split; [reflexivity|]. exact (Reset_state cpu_usr_thumb eq_refl).
Defined.

Lemma Run_arm_executes_witness :
  well_formed cpu_irq_unmasked /\
  f_thumb (cpsr (state cpu_irq_unmasked)) = false /\
  CheckCondition (cpsr (state cpu_irq_unmasked))
    (Condition_of_Z (Z.shiftr (pipe0 cpu_irq_unmasked) 28)) = true /\
  Run probe_lut probe_lut cpu_irq_unmasked
  = probe_lut (Z.lor (Z.land (Z.shiftr (pipe0 cpu_irq_unmasked) 16) 0xFF0)
                     (Z.land (Z.shiftr (pipe0 cpu_irq_unmasked) 4) 0x00F))
      (pipe0 cpu_irq_unmasked) (prefetch_arm cpu_irq_unmasked).
Proof.
  split; [reflexivity|]. split; [reflexivity|]. split; [reflexivity|].
  exact (proj1 (Run_arm_executes probe_lut probe_lut cpu_irq_unmasked
                  eq_refl eq_refl eq_refl)).
Defined.

Lemma Run_thumb_prefetch_witness :
  well_formed cpu_usr_thumb /\
  f_thumb (cpsr (state cpu_usr_thumb)) = true /\
  get_reg 15 (prefetch_thumb cpu_usr_thumb)
  = Z.land (get_reg 15 cpu_usr_thumb) 0xFFFFFFFE.
Proof.
  split; [reflexivity|]. split; [reflexivity|].
  exact (proj1 (proj2 (Run_thumb_prefetch probe_lut probe_lut cpu_usr_thumb
                         eq_refl eq_refl))).
Defined.

Lemma Run_times_skips_witness :
  (forall address kind (b : unit), Z.shiftr (fst (bus_ReadWord address kind b)) 28 = 15) /\
  well_formed cpu_blank /\
  f_thumb (cpsr (state cpu_blank)) = false /\
  Z.shiftr (pipe0 cpu_blank) 28 = 15 /\ Z.shiftr (pipe1 cpu_blank) 28 = 15 /\
  0 <= get_reg 15 cpu_blank < 2 ^ 32 /\ Z.land (get_reg 15 cpu_blank) 3 = 0 /\
  get_reg 15 (Run_times (fun _ _ c => c) (fun _ _ c => c) 3 cpu_blank)
  = u32 (get_reg 15 cpu_blank + 4 * Z.of_nat 3).
Proof.
  assert (Hbus : forall address kind (b : unit),
             Z.shiftr (fst (bus_ReadWord address kind b)) 28 = 15)
    by (intros; reflexivity).
  assert (Hpc : 0 <= get_reg 15 cpu_blank < 2 ^ 32)
    by (change (0 <= 0x08000008 < 2 ^ 32); lia).
  split; [exact Hbus|]. split; [reflexivity|]. split; [reflexivity|].
  split; [reflexivity|]. split; [reflexivity|]. split; [exact Hpc|]. split; [reflexivity|].
  exact (proj1 (Run_times_skips (fun _ _ c => c) (fun _ _ c => c) 3 cpu_blank
                  Hbus eq_refl eq_refl eq_refl eq_refl Hpc eq_refl)).
Defined.


Lemma SignalIrq_then_return_witness :
  well_formed cpu_usr_arm /\
  f_mask_irq (cpsr (state cpu_usr_arm)) = false /\
  f_mode (cpsr (state cpu_usr_arm)) <> MODE_IRQ /\
  0 <= f_mode (cpsr (state cpu_usr_arm)) < 32 /\
  (14 < 15)%nat /\
  get_reg 14 (SwitchMode (f_mode (cpsr (state cpu_usr_arm))) (SignalIrq cpu_usr_arm))
  = get_reg 14 cpu_usr_arm.
Proof.
  assert (Hm : f_mode (cpsr (state cpu_usr_arm)) <> MODE_IRQ)
    by (cbn; unfold MODE_USR, MODE_IRQ; lia).
  assert (Hr : 0 <= f_mode (cpsr (state cpu_usr_arm)) < 32)
    by (cbn; unfold MODE_USR; lia).
  assert (Hi : (14 < 15)%nat) by lia.
  split; [reflexivity|]. split; [reflexivity|]. split; [exact Hm|].
  split; [exact Hr|]. split; [exact Hi|].
  exact (SignalIrq_then_return cpu_usr_arm 14 eq_refl eq_refl Hm Hr Hi).
Defined.

Lemma RefillA_then_Run_witness :
  well_formed cpu_usr_arm /\
  f_thumb (cpsr (state cpu_usr_arm)) = false /\
  0 <= get_reg 15 cpu_usr_arm /\ get_reg 15 cpu_usr_arm + 8 < 2 ^ 32 /\
  Z.land (get_reg 15 cpu_usr_arm) 3 = 0 /\
  get_reg 15 (prefetch_arm (RefillA cpu_usr_arm)) = get_reg 15 cpu_usr_arm + 8.
Proof.
  assert (Hlo : 0 <= get_reg 15 cpu_usr_arm) by (change (0 <= 0x08000008); lia).
  assert (Hhi : get_reg 15 cpu_usr_arm + 8 < 2 ^ 32)
    by (change (0x08000008 + 8 < 2 ^ 32); lia).
  split; [reflexivity|]. split; [reflexivity|]. split; [exact Hlo|].
  split; [exact Hhi|]. split; [reflexivity|].
  exact (proj1 (proj2 (proj2 (RefillA_then_Run probe_lut probe_lut cpu_usr_arm
                                eq_refl eq_refl Hlo Hhi eq_refl)))).
Defined.

Lemma RefillT_then_Run_witness :
  well_formed cpu_usr_thumb /\
  f_thumb (cpsr (state cpu_usr_thumb)) = true /\
  0 <= get_reg 15 cpu_usr_thumb /\ get_reg 15 cpu_usr_thumb + 4 < 2 ^ 32 /\
  Z.land (get_reg 15 cpu_usr_thumb) 1 = 0 /\
  get_reg 15 (prefetch_thumb (RefillT cpu_usr_thumb)) = get_reg 15 cpu_usr_thumb + 4.
Proof.
  assert (Hlo : 0 <= get_reg 15 cpu_usr_thumb) by (change (0 <= 0x08000004); lia).
  assert (Hhi : get_reg 15 cpu_usr_thumb + 4 < 2 ^ 32)
    by (change (0x08000004 + 4 < 2 ^ 32); lia).
  split; [reflexivity|]. split; [reflexivity|]. split; [exact Hlo|].
  split; [exact Hhi|]. split; [reflexivity|].
  exact (proj1 (proj2 (proj2 (RefillT_then_Run probe_lut probe_lut cpu_usr_thumb
                                eq_refl eq_refl Hlo Hhi eq_refl)))).
Defined.

Lemma Reset_then_Run_witness :
  well_formed cpu_usr_thumb /\
  get_reg 15 (Run_times probe_lut probe_lut 2 (Reset cpu_usr_thumb)) = 8.
Proof.
  split; [reflexivity|].
  exact (proj1 (Reset_then_Run probe_lut probe_lut cpu_usr_thumb eq_refl)).
Defined.
